(** * ETLPassing_the_Way: the news ETL pipeline

    A shallow embedding of [multi_parser.py], [etl_pipe.py],
    [models/article.py] and [schemas/article.py], and the properties of the
    fetch / extract / gather / aggregate / serialise pipeline.

    Conventions of the embedding.
    - A Python [str] is a Rocq [string]; each character stands for one code
      point below 256.
    - Code that can raise returns a [result]; code that also talks to the
      session or to the logger runs in the monad [M], whose state is the
      list of requests sent and the list of log records written.
    - The libraries the program calls are not part of the repository.  What
      the program needs of them is either written out from their documented
      behaviour (the tag search of bs4, [asyncio.gather], the field-wise
      dump and load of a marshmallow schema) or taken as a parameter of the
      development: the HTML parser, the network, and the two URL validators
      ([pydantic.HttpUrl] for the model, [marshmallow.fields.Url] for the
      schema). *)

From Stdlib Require Import Ascii.
From stdpp Require Import base option list strings gmap.

(** ** Strings *)

(** [str.isspace] on one character (code points below 256). *)
Definition isspace (c : ascii) : bool :=
  let n := nat_of_ascii c in
  (((9 <=? n) && (n <=? 13)) || ((28 <=? n) && (n <=? 32))
   || (n =? 133) || (n =? 160))%nat.

Fixpoint lstrip (s : string) : string :=
  match s with
  | EmptyString => EmptyString
  | String c s' => if isspace c then lstrip s' else s
  end.

Fixpoint rstrip (s : string) : string :=
  match s with
  | EmptyString => EmptyString
  | String c s' =>
      match rstrip s' with
      | EmptyString => if isspace c then EmptyString else String c EmptyString
      | r => String c r
      end
  end.

(** [s.strip()] *)
Definition strip (s : string) : string := rstrip (lstrip s).

(** Truthiness of an optional string, as in [if title and ...]: [None] and
    the empty string are false. *)
Definition truthy (o : option string) : bool :=
  match o with
  | Some (String _ _) => true
  | _ => false
  end.

(** ** The parsed document (bs4) *)

(** A node of the tree bs4 builds.  Of a tag's attributes the program reads
    [class] (which bs4 stores as the list of its space-separated values) and
    [href]; [None] is an attribute that is not there. *)
#[warnings="-register-all"]
Inductive PageElement : Type :=
  | NavigableString (s : string)
  | Tag (name : string) (class_ : option (list string))
        (href : option string) (contents : list PageElement).

(** [tag.descendants]: every node below the tag, in document order. *)
Fixpoint descendants (e : PageElement) : list PageElement :=
  match e with
  | NavigableString _ => []
  | Tag _ _ _ cs =>
      (fix below (l : list PageElement) : list PageElement :=
         match l with
         | [] => []
         | c :: l' => c :: descendants c ++ below l'
         end) cs
  end.

(** [tag.text]: the strings below the tag, concatenated. *)
Fixpoint text (e : PageElement) : string :=
  match e with
  | NavigableString s => s
  | Tag _ _ _ cs =>
      (fix join (l : list PageElement) : string :=
         match l with
         | [] => ""
         | c :: l' => text c +:+ join l'
         end) cs
  end.

(** [tag.get('href')] on a tag found with [attrs={"href": True}]. *)
Definition get_href (e : PageElement) : option string :=
  match e with
  | Tag _ _ h _ => h
  | NavigableString _ => None
  end.

(** The search criteria of one [find] / [find_all] call: the tag name, the
    collection given as [class_] and whether [attrs={"href": True}] was
    passed. *)
Record SoupStrainer : Type := {
  sel_name : string;
  sel_class : list string;
  sel_href : bool
}.

Definition str_in (s : string) (l : list string) : bool :=
  existsb (String.eqb s) l.

(** How bs4 matches the [class] attribute against a collection: a tag
    without the attribute matches only the empty collection; otherwise one
    of the tag's classes, or the whole attribute value, must be in it. *)
Definition class_matches (against : list string)
    (value : option (list string)) : bool :=
  match value with
  | None => match against with [] => true | _ :: _ => false end
  | Some cls =>
      existsb (fun c => str_in c against) cls
      || str_in (String.concat " " cls) against
  end.

Definition search_tag (f : SoupStrainer) (e : PageElement) : bool :=
  match e with
  | NavigableString _ => false
  | Tag n c h _ =>
      String.eqb n (sel_name f) && class_matches (sel_class f) c
      && (if sel_href f then bool_decide (is_Some h) else true)
  end.

(** [tag.find_all(name, class_=..., attrs=...)] *)
Definition find_all (e : PageElement) (f : SoupStrainer) : list PageElement :=
  List.filter (search_tag f) (descendants e).

(** [tag.find(...)]: the first match, or [None]. *)
Definition find (e : PageElement) (f : SoupStrainer) : option PageElement :=
  head (find_all e f).

(** ** Faults and results *)

(** The exceptions the pipeline meets.  [ValidationError] is pydantic's and
    carries the names of the fields in error; [SchemaError] is marshmallow's
    [ValidationError]; the other two come from the HTTP client. *)
Inductive exn : Type :=
  | ValidationError (fields : list string)
  | SchemaError (fields : list string)
  | ClientError (msg : string)
  | TimeoutError.

Inductive result (A : Type) : Type :=
  | Return (a : A)
  | Raise (e : exn).
Arguments Return {A} a.
Arguments Raise {A} e.

(** ** Python values that reach the JSON file *)

(** [None], a [str], a list and a [dict] with string keys, which
    [json.dump] writes as null, a string, an array and an object. *)
#[warnings="-register-all"]
Inductive json : Type :=
  | JNull
  | JStr (s : string)
  | JArr (l : list json)
  | JObj (o : gmap string json).

(** ** Session and logger state *)

(** What loguru is asked to write: [logger.error] with the fault of one
    item, and [logger.info] with the number of articles and the URL. *)
Inductive log_record : Type :=
  | LogError (e : exn)
  | LogInfo (n : nat) (url : string).

Definition is_error (r : log_record) : bool :=
  match r with LogError _ => true | LogInfo _ _ => false end.

(** [Optional[Dict[str, str]]] *)
Abbreviation Headers := (option (gmap string string)).

(** The state one [run] works on: the requests its session has sent and the
    records it has logged, oldest first. *)
Record world : Type := {
  requests : list (string * Headers);
  logged : list log_record
}.

Definition fresh : world := {| requests := []; logged := [] |}.

(** A computation that may raise and that reads and extends the [world]. *)
Definition M (A : Type) : Type := world → result A * world.

Definition ret {A} (a : A) : M A := fun w => (Return a, w).

Definition bind {A B} (m : M A) (k : A → M B) : M B := fun w =>
  match m w with
  | (Return a, w') => k a w'
  | (Raise e, w') => (Raise e, w')
  end.

#[global] Instance M_ret : MRet M := @ret.
#[global] Instance M_bind : MBind M := fun A B k m => bind m k.

Definition logger_error (e : exn) : M unit := fun w =>
  (Return tt, {| requests := requests w; logged := logged w ++ [LogError e] |}).

Definition logger_info (n : nat) (url : string) : M unit := fun w =>
  (Return tt, {| requests := requests w; logged := logged w ++ [LogInfo n url] |}).

(** ** models/article.py *)

(** The [url] of a record stands for the URL the model holds, written here
    as the string the model was given.  The normal form in which pydantic
    prints a URL (a bare host gets a trailing slash, for one) is not
    modelled. *)
Record Article : Type := {
  source : string;
  title : string;
  timestamp : option string;
  url : string
}.

Section Model.

(** [pydantic.HttpUrl]: does the library accept this string as an http(s)
    URL? *)
Variable HttpUrl_ok : string → bool.

(** Names of the fields pydantic rejects, in field order.  [source] and
    [title] are [str] and [url] is [HttpUrl]: a missing value or [None] is
    an error; [timestamp] is [Optional[str] = None]. *)
Definition Article_errors (source title timestamp url : option string)
    : list string :=
  (if source is None then ["source"] else [])
  ++ (if title is None then ["title"] else [])
  ++ (match url with
      | Some u => if HttpUrl_ok u then [] else ["url"]
      | None => ["url"]
      end).

(** [Article(source=..., title=..., timestamp=..., url=...)] *)
Definition Article_init (source title timestamp url : option string)
    : result Article :=
  match source, title, url, Article_errors source title timestamp url with
  | Some s, Some t, Some u, [] =>
      Return {| source := s; title := t; timestamp := timestamp; url := u |}
  | _, _, _, errs => Raise (ValidationError errs)
  end.

(** ** multi_parser.py *)

(** The four concrete classes, and an instance of one of them: the
    attributes [url] and [headers] set by [__init__]. *)
Inductive parser_class : Type :=
  | KommersantParser | RBCParser | IXBTParser | RIAParser.

Record NewsParser : Type := {
  cls : parser_class;
  self_url : string;
  self_headers : Headers
}.

(** [self.source], set by each class's [__init__]. *)
Definition self_source (c : parser_class) : string :=
  match c with
  | KommersantParser => "Kommersant"
  | RBCParser => "RBC"
  | IXBTParser => "IXBT"
  | RIAParser => "RIA"
  end.

(** What the session answers to a GET: the client raises, or there is a
    response with a status, whose text is [body].  A response with a status
    whose text cannot be read is not among these outcomes. *)
Inductive get_outcome : Type :=
  | Raised (e : exn)
  | Responded (status : Z) (body : string).

(** [BeautifulSoup(html, 'html.parser')]: the root of the parsed tree. *)
Variable BeautifulSoup : string → PageElement.

(** [session.get(url, headers=...)] *)
Variable session_get : string → Headers → get_outcome.

(** [NewsParserInterface.fetch]: one GET, and the text of whatever response
    comes back. *)
Definition fetch (self : NewsParser) (url : string) : M string := fun w =>
  let w' := {| requests := requests w ++ [(url, self_headers self)];
               logged := logged w |} in
  match session_get url (self_headers self) with
  | Raised e => (Raise e, w')
  | Responded _ body => (Return body, w')
  end.

Definition strainer (name : string) (class_ : list string) (href : bool)
    : SoupStrainer :=
  {| sel_name := name; sel_class := class_; sel_href := href |}.

(** The body of the [try] in each [parse]: [Raise] is an exception caught by
    the [except], [Return (Some a)] an article appended, [Return None] an
    item the [if] left out. *)
Definition append_article (r : result Article) : result (option Article) :=
  match r with
  | Return article_data => Return (Some article_data)
  | Raise e => Raise e
  end.

Definition KommersantParser_item (article : PageElement)
    : result (option Article) :=
  let title_element := find article (strainer "span" ["vam"] false) in
  let timestamp_element :=
    find article
      (strainer "p" ["uho__tag"; "rubric_lenta__item_tag"; "hide_mobile"] false) in
  let relative_url_element :=
    find article (strainer "a" ["uho__link"; "uho__link--overlay"] true) in
  let title := (fun e => strip (text e)) <$> title_element in
  let timestamp := (fun e => strip (text e)) <$> timestamp_element in
  let article_url :=
    relative_url_element ≫= fun e =>
      (fun h => "https://www.kommersant.ru" +:+ h) <$> get_href e in
  append_article
    (Article_init (Some (self_source KommersantParser)) title timestamp article_url).

Definition RBCParser_item (article : PageElement) : result (option Article) :=
  let title_element := find article (strainer "span" ["normal-wrap"] false) in
  let timestamp_div := find article (strainer "div" ["item__bottom"] false) in
  let timestamp_element :=
    timestamp_div ≫= fun d => find d (strainer "span" ["item__category"] false) in
  let article_url :=
    find article
      (strainer "a"
         ["item__link"; "rm-cm-item-link"; "js-rm-central-column-item-link"] true) in
  let title := (fun e => strip (text e)) <$> title_element in
  let timestamp := (fun e => strip (text e)) <$> timestamp_element in
  let article_url := article_url ≫= get_href in
  if truthy title && truthy timestamp && truthy article_url then
    append_article
      (Article_init (Some (self_source RBCParser)) title timestamp article_url)
  else Return None.

Definition IXBTParser_item (article : PageElement) : result (option Article) :=
  let title_element := find article (strainer "a" [] true) in
  let timestamp_element :=
    find article (strainer "span" ["time_iteration_icon_light"] false) in
  let article_url := find article (strainer "a" ["comments_link"] true) in
  let title := (fun e => strip (text e)) <$> title_element in
  let timestamp := (fun e => strip (text e)) <$> timestamp_element in
  let article_url :=
    article_url ≫= fun e => (fun h => "https://www.ixbt.com/" +:+ h) <$> get_href e in
  if truthy title && truthy timestamp && truthy article_url then
    append_article
      (Article_init (Some (self_source IXBTParser)) title timestamp article_url)
  else Return None.

Definition RIAParser_item (article : PageElement) : result (option Article) :=
  let title_element :=
    find article
      (strainer "a" ["list-item__title"; "color-font-hover-only"] true) in
  let timestamp_element :=
    find article (strainer "div" ["list-item__date"] false) in
  let article_url := title_element ≫= get_href in
  let title := (fun e => strip (text e)) <$> title_element in
  let timestamp := (fun e => strip (text e)) <$> timestamp_element in
  if truthy title && truthy timestamp && truthy article_url then
    append_article
      (Article_init (Some (self_source RIAParser)) title timestamp article_url)
  else Return None.

(** The [find_all] that lists the items of a page. *)
Definition articles_of (c : parser_class) (soup : PageElement)
    : list PageElement :=
  match c with
  | KommersantParser =>
      find_all soup (strainer "article" ["uho"; "rubric_lenta__item"; "js-article"] false)
  | RBCParser => find_all soup (strainer "div" ["item__wrap"; "l-col-center"] false)
  | IXBTParser => find_all soup (strainer "li" ["item"] false)
  | RIAParser => find_all soup (strainer "div" ["list-item"] false)
  end.

Definition item_of (c : parser_class) : PageElement → result (option Article) :=
  match c with
  | KommersantParser => KommersantParser_item
  | RBCParser => RBCParser_item
  | IXBTParser => IXBTParser_item
  | RIAParser => RIAParser_item
  end.

(** [for article in articles: try: ... except Exception as e:
    logger.error(...)], with [articles_data] as the accumulator. *)
Fixpoint for_articles (item : PageElement → result (option Article))
    (articles : list PageElement) (articles_data : list Article)
    : M (list Article) :=
  match articles with
  | [] => ret articles_data
  | article :: rest =>
      match item article with
      | Return (Some article_data) =>
          for_articles item rest (articles_data ++ [article_data])
      | Return None => for_articles item rest articles_data
      | Raise e => logger_error e ;; for_articles item rest articles_data
      end
  end.

(** The articles of the items that yield one, the faults of the items that
    raise, and the items the [if] leaves out, each in document order. *)
Definition extracted (item : PageElement → result (option Article))
    (articles : list PageElement) : list Article :=
  omap (fun article =>
          match item article with Return (Some a) => Some a | _ => None end)
       articles.

Definition faults (item : PageElement → result (option Article))
    (articles : list PageElement) : list exn :=
  omap (fun article =>
          match item article with Raise e => Some e | _ => None end)
       articles.

Definition left_out (item : PageElement → result (option Article))
    (articles : list PageElement) : list PageElement :=
  List.filter (fun article =>
                 match item article with Return None => true | _ => false end)
              articles.

(** The element each class reads the time from. *)
Definition timestamp_element (c : parser_class) (article : PageElement)
    : option PageElement :=
  match c with
  | KommersantParser =>
      find article
        (strainer "p" ["uho__tag"; "rubric_lenta__item_tag"; "hide_mobile"] false)
  | RBCParser =>
      find article (strainer "div" ["item__bottom"] false) ≫= fun d =>
        find d (strainer "span" ["item__category"] false)
  | IXBTParser =>
      find article (strainer "span" ["time_iteration_icon_light"] false)
  | RIAParser => find article (strainer "div" ["list-item__date"] false)
  end.

(** The three values each class computes for an item: [title],
    [timestamp] and [article_url]. *)
Definition title_of (c : parser_class) (article : PageElement)
    : option string :=
  (fun e => strip (text e)) <$>
    match c with
    | KommersantParser => find article (strainer "span" ["vam"] false)
    | RBCParser => find article (strainer "span" ["normal-wrap"] false)
    | IXBTParser => find article (strainer "a" [] true)
    | RIAParser =>
        find article
          (strainer "a" ["list-item__title"; "color-font-hover-only"] true)
    end.

Definition timestamp_of (c : parser_class) (article : PageElement)
    : option string :=
  (fun e => strip (text e)) <$> timestamp_element c article.

Definition url_of (c : parser_class) (article : PageElement)
    : option string :=
  match c with
  | KommersantParser =>
      find article (strainer "a" ["uho__link"; "uho__link--overlay"] true)
      ≫= fun e => (fun h => "https://www.kommersant.ru" +:+ h) <$> get_href e
  | RBCParser =>
      find article
        (strainer "a"
           ["item__link"; "rm-cm-item-link"; "js-rm-central-column-item-link"] true)
      ≫= get_href
  | IXBTParser =>
      find article (strainer "a" ["comments_link"] true)
      ≫= fun e => (fun h => "https://www.ixbt.com/" +:+ h) <$> get_href e
  | RIAParser =>
      find article
        (strainer "a" ["list-item__title"; "color-font-hover-only"] true)
      ≫= get_href
  end.

(** The classes whose loop body has [if title and timestamp and
    article_url]. *)
Definition guarded (c : parser_class) : bool :=
  match c with
  | KommersantParser => false
  | RBCParser | IXBTParser | RIAParser => true
  end.

(** An item the loop body of its class accepts: one whose three values pass
    the [if], where there is one, and the validation of the model. *)
Definition accepted (c : parser_class) (article : PageElement) : bool :=
  (if guarded c
   then truthy (title_of c article) && truthy (timestamp_of c article)
        && truthy (url_of c article)
   else true)
  && bool_decide (is_Some (title_of c article))
  && from_option HttpUrl_ok false (url_of c article).

(** The record of an accepted item. *)
Definition record_of (c : parser_class) (article : PageElement)
    : option Article :=
  if accepted c article then
    t ← title_of c article;
    u ← url_of c article;
    Some {| source := self_source c; title := t;
            timestamp := timestamp_of c article; url := u |}
  else None.

(** *** The well-formed items of the spec

    These definitions follow the words of the spec, not the loop bodies:
    they are what the code is compared with.  The spec's data model asks of
    a record a source that is not empty, a title that is not empty once
    stripped, and a valid absolute URL, and says that a record without a
    timestamp is valid.  The candidate of an item is the record of the
    three values its class reads, before any check; an item is well formed
    when it has a candidate and the candidate is valid. *)
Definition candidate (c : parser_class) (article : PageElement)
    : option Article :=
  t ← title_of c article;
  u ← url_of c article;
  Some {| source := self_source c; title := t;
          timestamp := timestamp_of c article; url := u |}.

Definition blank_title (a : Article) : bool := String.eqb (strip (title a)) "".

Definition valid_record (a : Article) : bool :=
  negb (String.eqb (source a) "") && negb (blank_title a)
  && negb (String.eqb (url a) "") && HttpUrl_ok (url a).

Definition well_formed (c : parser_class) (article : PageElement) : bool :=
  from_option valid_record false (candidate c article).

(** [parse]: the four methods differ in the [find_all] and in the body of
    the loop. *)
Definition parse (self : NewsParser) (url : string) : M (list Article) :=
  html ← fetch self url;
  let soup := BeautifulSoup html in
  let articles := articles_of (cls self) soup in
  articles_data ← for_articles (item_of (cls self)) articles [];
  logger_info (length articles_data) url;;
  ret articles_data.

(** [NewsParserInterface.run], on a session of its own. *)
Definition run (self : NewsParser) : result (list Article) * world :=
  parse self (self_url self) fresh.

(** *** [asyncio.gather] on the tasks, without [return_exceptions] *)

(** The state of one [gather]: the child futures ([None] while pending), the
    count of finished children, and the outer future the caller awaits. *)
Record gather_state (A : Type) : Type := {
  children : list (option (result A));
  nfinished : nat;
  outer : option (result (list A))
}.
Arguments children {A} _.
Arguments nfinished {A} _.
Arguments outer {A} _.

(** [[fut.result() for fut in children]] *)
Definition results_of {A} (cs : list (option (result A))) : list A :=
  omap (fun c => match c with Some (Return a) => Some a | _ => None end) cs.

(** The callback gather attaches to each child, run when child [i] finishes
    with [r].  Once the outer future is done nothing changes it; the first
    child to raise settles it with that exception; otherwise it is settled
    with the list of results when the last child finishes. *)
Definition done_callback {A} (nfuts i : nat) (r : result A)
    (g : gather_state A) : gather_state A :=
  let children' := <[i := Some r]> (children g) in
  let nfinished' := S (nfinished g) in
  let outer' :=
    match outer g with
    | Some o => Some o
    | None =>
        match r with
        | Raise e => Some (Raise e)
        | Return _ =>
            if (nfinished' =? nfuts)%nat then Some (Return (results_of children'))
            else None
        end
    end in
  {| children := children'; nfinished := nfinished'; outer := outer' |}.

Definition gather_init {A} (nfuts : nat) : gather_state A :=
  {| children := replicate nfuts None;
     nfinished := 0;
     outer := if (nfuts =? 0)%nat then Some (Return []) else None |}.

(** [await asyncio.gather] of the tasks when task [i] ends with [outcomes !! i]
    and the tasks finish in the order [order].  [None]: the caller is still
    waiting. *)
Definition child_done {A} (outcomes : list (result A))
    (g : gather_state A) (i : nat) : gather_state A :=
  match outcomes !! i with
  | Some r => done_callback (length outcomes) i r g
  | None => g
  end.

Definition gather {A} (outcomes : list (result A)) (order : list nat)
    : option (result (list A)) :=
  outer (foldl (child_done outcomes) (gather_init (length outcomes)) order).

(** The exception of the first task in [order] that raised, if any. *)
Fixpoint first_raised {A} (outcomes : list (result A)) (order : list nat)
    : option exn :=
  match order with
  | [] => None
  | i :: rest =>
      match outcomes !! i with
      | Some (Raise e) => Some e
      | _ => first_raised outcomes rest
      end
  end.

(** The child futures once the tasks listed in [finished] are done. *)
Definition marked {A} (outcomes : list (result A)) (finished : list nat)
    : list (option (result A)) :=
  imap (fun j r => if bool_decide (j ∈ finished) then Some r else None) outcomes.

(** The parsers [main] registers, in the order of its [tasks] list. *)
Definition kommersant_parser : NewsParser :=
  {| cls := KommersantParser;
     self_url := "https://www.kommersant.ru/hitech?from=burger";
     self_headers := None |}.
Definition rbc_parser : NewsParser :=
  {| cls := RBCParser;
     self_url := "https://www.rbc.ru/technology_and_media/?utm_source=topline";
     self_headers := None |}.
Definition ixbt_parser : NewsParser :=
  {| cls := IXBTParser;
     self_url := "https://www.ixbt.com/news/";
     self_headers := None |}.
Definition ria_parser : NewsParser :=
  {| cls := RIAParser;
     self_url := "https://ria.ru/technology/";
     self_headers := None |}.

Definition tasks : list NewsParser :=
  [kommersant_parser; rbc_parser; ixbt_parser; ria_parser].

(** [multi_parser.main], for a completion order of the four tasks. *)
Definition main (order : list nat) : option (result (list (list Article))) :=
  gather ((fun p => (run p).1) <$> tasks) order.

(** ** schemas/article.py *)

(** [marshmallow.fields.Url]: does the field's validator accept this
    string? *)
Variable fields_Url_ok : string → bool.

(** [ArticleSchema().dump(article)]: each declared field read off the
    object; [fields.Str] and [fields.Url] serialise [None] as [None]. *)
Definition ArticleSchema_dump (article : Article) : gmap string json :=
  <["source" := JStr (source article)]>
    (<["title" := JStr (title article)]>
       (<["timestamp" := from_option JStr JNull (timestamp article)]>
          (<["url" := JStr (url article)]> ∅))).

(** What deserialising one field gives: the key is not in the input, a
    value, or a validation error. *)
Inductive field_value : Type :=
  | Missing
  | Value (v : option string)
  | Invalid.

(** [fields.Str(allow_none=...)] on the raw value of its key. *)
Definition Str_deserialize (allow_none : bool) (raw : option json)
    : field_value :=
  match raw with
  | None => Missing
  | Some JNull => if allow_none then Value None else Invalid
  | Some (JStr v) => Value (Some v)
  | Some _ => Invalid
  end.

(** [fields.Url()]: a string that passes the URL validator. *)
Definition Url_deserialize (raw : option json) : field_value :=
  match Str_deserialize false raw with
  | Value (Some v) => if fields_Url_ok v then Value (Some v) else Invalid
  | r => r
  end.

Definition declared_fields : list string :=
  ["source"; "title"; "timestamp"; "url"].

Definition loaded (v : field_value) : option string :=
  match v with Value (Some s) => Some s | _ => None end.

(** [ArticleSchema.make_article], the [post_load] hook: [Article] built from the
    loaded data as keyword arguments. *)
Definition make_article (source title timestamp url : field_value)
    : result Article :=
  Article_init (loaded source) (loaded title) (loaded timestamp) (loaded url).

(** [ArticleSchema().load(data)]: the declared fields are deserialised,
    keys that are not declared are errors, and with no error the hook
    builds the article. *)
Definition ArticleSchema_load (data : gmap string json) : result Article :=
  let source := Str_deserialize false (data !! "source") in
  let title := Str_deserialize false (data !! "title") in
  let timestamp := Str_deserialize true (data !! "timestamp") in
  let url := Url_deserialize (data !! "url") in
  let invalid :=
    List.filter (fun '(_, v) => if v is Invalid then true else false)
      [("source", source); ("title", title); ("timestamp", timestamp); ("url", url)] in
  let unknown :=
    List.filter (fun k => negb (str_in k declared_fields)) (elements (dom data)) in
  match invalid.*1 ++ unknown with
  | [] => make_article source title timestamp url
  | errors => Raise (SchemaError errors)
  end.

(** ** etl_pipe.py *)

(** The two nested loops of [main] that fill [articles_list]. *)
Definition articles_list (results : list (list Article))
    : list (gmap string json) :=
  foldl (fun acc result =>
           foldl (fun acc article => acc ++ [ArticleSchema_dump article])
                 acc result)
        [] results.

(** [save_to_json(data)]: the JSON document written to [news_data.json]. *)
Definition save_to_json (data : list (gmap string json)) : json :=
  JArr (JObj <$> data).

(** [etl_pipe.main]: [Return j] is a run that ends having written [j];
    [Raise e] is a run that [e] ends before [save_to_json] is reached, so
    that nothing is written. *)
Definition etl_main (order : list nat) : option (result json) :=
  (fun r =>
     match r with
     | Return results => Return (save_to_json (articles_list results))
     | Raise e => Raise e
     end) <$> main order.

(** ** models/article.py, the [dict] method *)

(** [Article.dict]: the dictionary of the four attributes, [None] being the
    Python [None]. *)
Definition Article_dict (self : Article) : gmap string (option string) :=
  <["source" := Some (source self)]>
    (<["title" := Some (title self)]>
       (<["timestamp" := timestamp self]>
          (<["url" := Some (url self)]> ∅))).

(** ** tests/test_multi_parser.py *)

(** How [test_site_connection] ends: it passes, or [pytest.fail] (or the
    failed [assert], which the last [except] turns into [pytest.fail]) stops
    it at a URL. *)
Inductive test_outcome : Type :=
  | Passed
  | Failed (url : string).

Definition urls : list string :=
  ["https://www.kommersant.ru/hitech?from=burger";
   "https://www.rbc.ru/technology_and_media/?utm_source=topline";
   "https://www.ixbt.com/news/";
   "https://ria.ru/technology/"].

(** The loop of the test over the remaining URLs: a GET without headers,
    and the assertion that the status is 200. *)
Fixpoint check_sites (remaining : list string) : test_outcome :=
  match remaining with
  | [] => Passed
  | url :: rest =>
      match session_get url None with
      | Raised _ => Failed url
      | Responded status _ =>
          if (status =? 200)%Z then check_sites rest else Failed url
      end
  end.

Definition test_site_connection : test_outcome := check_sites urls.

End Model.

(** ** Sample inputs

    Instances of the parameters and small documents, on which the
    definitions above are evaluated.  [sample_HttpUrl] and
    [sample_fields_Url] stand for pydantic's [HttpUrl] and for marshmallow's
    URL validator on the URLs that occur in these samples, and on nothing
    else.  Both accept [scheme://host...] without blanks, the model's for
    the schemes http and https, the schema's also for ftp and ftps.  The
    host pattern of marshmallow is made of labels of letters, digits and
    hyphens; pydantic also takes an underscore in a label. *)

Fixpoint drop_prefix (p s : string) : option string :=
  match p, s with
  | EmptyString, _ => Some s
  | String a p', String b s' => if Ascii.eqb a b then drop_prefix p' s' else None
  | String _ _, EmptyString => None
  end.

Fixpoint all_chars (P : ascii → bool) (s : string) : bool :=
  match s with
  | EmptyString => true
  | String c s' => P c && all_chars P s'
  end.

(** The part of [s] before the first [/], [?] or [#]. *)
Fixpoint host_of (s : string) : string :=
  match s with
  | EmptyString => EmptyString
  | String c s' =>
      if str_in (String c EmptyString) ["/"; "?"; "#"] then EmptyString
      else String c (host_of s')
  end.

Definition alnum (c : ascii) : bool :=
  let n := nat_of_ascii c in
  (((48 <=? n) && (n <=? 57)) || ((65 <=? n) && (n <=? 90))
   || ((97 <=? n) && (n <=? 122)))%nat.

Definition url_shape (schemes : list string) (host_char : ascii → bool)
    (s : string) : bool :=
  existsb
    (fun scheme =>
       match drop_prefix (scheme +:+ "://") s with
       | Some r =>
           negb (String.eqb (host_of r) "") && all_chars host_char (host_of r)
           && all_chars (fun c => negb (isspace c)) r
       | None => false
       end)
    schemes.

Definition sample_HttpUrl : string → bool :=
  url_shape ["http"; "https"]
    (fun c => alnum c || str_in (String c EmptyString) ["-"; "."; "_"]).

Definition sample_fields_Url : string → bool :=
  url_shape ["http"; "https"; "ftp"; "ftps"]
    (fun c => alnum c || str_in (String c EmptyString) ["-"; "."]).

Definition document (contents : list PageElement) : PageElement :=
  Tag "[document]" None None contents.

Definition el (name class_ : string) (contents : list PageElement)
    : PageElement :=
  Tag name (Some [class_]) None contents.

Definition link (class_ : option (list string)) (href : string)
    (contents : list PageElement) : PageElement :=
  Tag "a" class_ (Some href) contents.

(** Kommersant: an item with title, tag line and link; an item whose title
    span holds only a blank; an item without a title span; an item without
    a tag line. *)
Definition kommersant_full : PageElement :=
  el "article" "uho"
    [el "span" "vam" [NavigableString " Chip prices fall "];
     el "p" "uho__tag" [NavigableString "10:15"];
     link (Some ["uho__link"]) "/doc/1" []].

Definition kommersant_blank_title : PageElement :=
  el "article" "uho"
    [el "span" "vam" [NavigableString " "];
     link (Some ["uho__link"]) "/doc/2" []].

Definition kommersant_no_title : PageElement :=
  el "article" "uho"
    [el "p" "uho__tag" [NavigableString "11:40"];
     link (Some ["uho__link"]) "/doc/3" []].

Definition kommersant_no_time : PageElement :=
  el "article" "uho"
    [el "span" "vam" [NavigableString "New satellite"];
     link (Some ["uho__link"]) "/doc/4" []].

(** RBC: a full item, an item without a title and one without the
    category span that carries the time. *)
Definition rbc_full : PageElement :=
  el "div" "item__wrap"
    [link (Some ["item__link"]) "https://www.rbc.ru/technology_and_media/1"
       [el "span" "normal-wrap" [NavigableString "Telecom merger"]];
     el "div" "item__bottom"
       [el "span" "item__category" [NavigableString "09:30"]]].

Definition rbc_no_title : PageElement :=
  el "div" "item__wrap"
    [link (Some ["item__link"]) "https://www.rbc.ru/technology_and_media/2" [];
     el "div" "item__bottom"
       [el "span" "item__category" [NavigableString "09:45"]]].

Definition rbc_no_time : PageElement :=
  el "div" "item__wrap"
    [link (Some ["item__link"]) "https://www.rbc.ru/technology_and_media/3"
       [el "span" "normal-wrap" [NavigableString "Cloud tariffs"]];
     el "div" "item__bottom" []].

(** RBC: a full item whose link is a path, which the model rejects. *)
Definition rbc_relative : PageElement :=
  el "div" "item__wrap"
    [link (Some ["item__link"]) "/technology_and_media/4"
       [el "span" "normal-wrap" [NavigableString "Data centre"]];
     el "div" "item__bottom"
       [el "span" "item__category" [NavigableString "10:00"]]].

Definition ixbt_full : PageElement :=
  el "li" "item"
    [link None "/news/2024/01/01/gpu.html" [NavigableString "New GPU"];
     el "span" "time_iteration_icon_light" [NavigableString "12:00"];
     link (Some ["comments_link"]) "news/2024/01/01/gpu.html#comments" []].

Definition ixbt_no_time : PageElement :=
  el "li" "item"
    [link None "/news/2024/01/01/cpu.html" [NavigableString "New CPU"];
     link (Some ["comments_link"]) "news/2024/01/01/cpu.html#comments" []].

Definition ria_full : PageElement :=
  el "div" "list-item"
    [link (Some ["list-item__title"]) "https://ria.ru/20240101/launch.html"
       [NavigableString "Rocket launch"];
     el "div" "list-item__date" [NavigableString "Yesterday, 20:00"]].

Definition ria_no_time : PageElement :=
  el "div" "list-item"
    [link (Some ["list-item__title"]) "https://ria.ru/20240101/probe.html"
       [NavigableString "Probe landing"]].

(** The text of the sample pages, and the tree of each. *)
Definition kommersant_html : string :=
  "<article class='uho'><span class='vam'> Chip prices fall </span><p class='uho__tag'>10:15</p><a class='uho__link' href='/doc/1'></a></article><article class='uho'><p class='uho__tag'>11:40</p><a class='uho__link' href='/doc/3'></a></article><article class='uho'><span class='vam'>New satellite</span><a class='uho__link' href='/doc/4'></a></article>".

Definition kommersant_blank_title_html : string :=
  "<article class='uho'><span class='vam'> </span><a class='uho__link' href='/doc/2'></a></article>".

Definition rbc_html : string :=
  "<div class='item__wrap'><a class='item__link' href='https://www.rbc.ru/technology_and_media/1'><span class='normal-wrap'>Telecom merger</span></a><div class='item__bottom'><span class='item__category'>09:30</span></div></div><div class='item__wrap'><a class='item__link' href='https://www.rbc.ru/technology_and_media/2'></a><div class='item__bottom'><span class='item__category'>09:45</span></div></div><div class='item__wrap'><a class='item__link' href='/technology_and_media/4'><span class='normal-wrap'>Data centre</span></a><div class='item__bottom'><span class='item__category'>10:00</span></div></div>".

Definition rbc_no_title_html : string :=
  "<div class='item__wrap'><a class='item__link' href='https://www.rbc.ru/technology_and_media/2'></a><div class='item__bottom'><span class='item__category'>09:45</span></div></div>".

Definition rbc_no_time_html : string :=
  "<div class='item__wrap'><a class='item__link' href='https://www.rbc.ru/technology_and_media/3'><span class='normal-wrap'>Cloud tariffs</span></a><div class='item__bottom'></div></div>".

Definition ixbt_html : string :=
  "<li class='item'><a href='/news/2024/01/01/gpu.html'>New GPU</a><span class='time_iteration_icon_light'>12:00</span><a class='comments_link' href='news/2024/01/01/gpu.html#comments'></a></li>".

Definition ria_html : string :=
  "<div class='list-item'><a class='list-item__title' href='https://ria.ru/20240101/launch.html'>Rocket launch</a><div class='list-item__date'>Yesterday, 20:00</div></div>".

Definition no_items_html : string := "<div class='footer'></div>".

Definition sample_pages : list (string * PageElement) :=
  [(kommersant_html,
    document [kommersant_full; kommersant_no_title; kommersant_no_time]);
   (kommersant_blank_title_html, document [kommersant_blank_title]);
   (rbc_html, document [rbc_full; rbc_no_title; rbc_relative]);
   (rbc_no_title_html, document [rbc_no_title]);
   (rbc_no_time_html, document [rbc_no_time]);
   (ixbt_html, document [ixbt_full]);
   (ria_html, document [ria_full]);
   (no_items_html, document [el "div" "footer" []])].

(** The parser on the sample pages; any other text is taken to have no
    markup. *)
Definition sample_BeautifulSoup (html : string) : PageElement :=
  default (document [NavigableString html])
    ((list_to_map sample_pages : gmap string PageElement) !! html).

(** A network on which every site answers with its sample page. *)
Definition sample_get (url : string) (headers : Headers) : get_outcome :=
  if String.eqb url (self_url kommersant_parser) then Responded 200 kommersant_html
  else if String.eqb url (self_url rbc_parser) then Responded 200 rbc_html
  else if String.eqb url (self_url ixbt_parser) then Responded 200 ixbt_html
  else if String.eqb url (self_url ria_parser) then Responded 200 ria_html
  else Responded 404 "Not Found".

(** The same network with Kommersant unreachable. *)
Definition sample_get_kommersant_down (url : string) (headers : Headers)
    : get_outcome :=
  if String.eqb url (self_url kommersant_parser) then Raised (ClientError "connection refused")
  else sample_get url headers.

(** The sample network with a Kommersant page whose only item has a blank
    title, and with an RBC page whose only item has no title. *)
Definition sample_get_blank_title (url : string) (headers : Headers)
    : get_outcome :=
  if String.eqb url (self_url kommersant_parser)
  then Responded 200 kommersant_blank_title_html
  else sample_get url headers.

Definition sample_get_rbc_no_title (url : string) (headers : Headers)
    : get_outcome :=
  if String.eqb url (self_url rbc_parser)
  then Responded 200 rbc_no_title_html
  else sample_get url headers.

Definition sample_get_rbc_no_time (url : string) (headers : Headers)
    : get_outcome :=
  if String.eqb url (self_url rbc_parser)
  then Responded 200 rbc_no_time_html
  else sample_get url headers.

(** An article the model accepts and whose host name has an underscore. *)
Definition underscore_article : Article :=
  {| source := "RBC"; title := "Hosting"; timestamp := None;
     url := "https://a_b.ru/x" |}.

(** * Properties *)

#[local] Set Warnings "-clear-no-such-hyp".

(** ** [strip] *)

Lemma rstrip_cons c s :
  rstrip (String c s) =
    match rstrip s with
    | EmptyString => if isspace c then EmptyString else String c EmptyString
    | r => String c r
    end.
Proof. reflexivity. Qed.

Lemma rstrip_rstrip s : rstrip (rstrip s) = rstrip s.
Proof.
  induction s as [|c s IH]; [done|].
  rewrite rstrip_cons. destruct (rstrip s) as [|d r] eqn:Hr.
  - destruct (isspace c) eqn:Hc; [done|]. rewrite rstrip_cons. cbn. by rewrite Hc.
  - rewrite rstrip_cons. by rewrite IH.
Qed.

Lemma lstrip_head s :
  lstrip s = EmptyString ∨ ∃ c t, lstrip s = String c t ∧ isspace c = false.
Proof.
  induction s as [|c s IH]; [by left|]. cbn.
  destruct (isspace c) eqn:Hc; [done|]. right. by exists c, s.
Qed.

Lemma rstrip_head c t :
  isspace c = false → ∃ r, rstrip (String c t) = String c r.
Proof.
  intros Hc. rewrite rstrip_cons. destruct (rstrip t); rewrite ?Hc; eauto.
Qed.

Lemma strip_strip s : strip (strip s) = strip s.
Proof.
  unfold strip. destruct (lstrip_head s) as [->|(c & t & -> & Hc)]; [done|].
  destruct (rstrip_head c t Hc) as [r Hr].
  rewrite Hr at 1. cbn [lstrip]. rewrite Hc, <- Hr. apply rstrip_rstrip.
Qed.

Section Extraction.

Variable HttpUrl_ok : string → bool.
Variable BeautifulSoup : string → PageElement.
Variable session_get : string → Headers → get_outcome.

Local Abbreviation item_of' := (item_of HttpUrl_ok).
Local Abbreviation parse' := (parse HttpUrl_ok BeautifulSoup session_get).

(** The loop never raises: it returns the accumulator extended with the
    articles of the items that yield one, and logs the faults of the
    others. *)
Lemma for_articles_spec item articles articles_data w :
  for_articles item articles articles_data w =
    (Return (articles_data ++ extracted item articles),
     {| requests := requests w;
        logged := logged w ++ (LogError <$> faults item articles) |}).
Proof.
  unfold extracted, faults. revert articles_data w.
  induction articles as [|article rest IH]; intros articles_data w.
  - cbn. unfold ret. rewrite !app_nil_r. destruct w; reflexivity.
  - cbn. destruct (item article) as [[a|]|e]; cbn.
    + rewrite IH. by rewrite <- app_assoc.
    + apply IH.
    + unfold mbind, M_bind, bind, logger_error. rewrite IH. cbn.
      by rewrite <- app_assoc.
Qed.

Lemma extracted_app item l1 l2 :
  extracted item (l1 ++ l2) = extracted item l1 ++ extracted item l2.
Proof. apply omap_app. Qed.

Lemma faults_app item l1 l2 :
  faults item (l1 ++ l2) = faults item l1 ++ faults item l2.
Proof. apply omap_app. Qed.

Lemma extracted_cons_raise item article rest e :
  item article = Raise e → extracted item (article :: rest) = extracted item rest.
Proof. intros H. unfold extracted. cbn. by rewrite H. Qed.

Lemma faults_cons_raise item article rest e :
  item article = Raise e → faults item (article :: rest) = e :: faults item rest.
Proof. intros H. unfold faults. cbn. by rewrite H. Qed.

(** Every item is in exactly one of the three groups. *)
Lemma items_partition item articles :
  length (extracted item articles) + length (faults item articles)
  + length (left_out item articles) = length articles.
Proof.
  induction articles as [|article rest IH]; [done|].
  cbn. unfold extracted, faults, left_out in IH.
  destruct (item article) as [[a|]|e]; cbn; lia.
Qed.

(** What [parse] does when the session answers. *)
Lemma parse_responded self url w status html :
  session_get url (self_headers self) = Responded status html →
  let articles := articles_of (cls self) (BeautifulSoup html) in
  let found := extracted (item_of' (cls self)) articles in
  parse' self url w =
    (Return found,
     {| requests := requests w ++ [(url, self_headers self)];
        logged := logged w
                  ++ (LogError <$> faults (item_of' (cls self)) articles)
                  ++ [LogInfo (length found) url] |}).
Proof.
  intros Hget articles found.
  unfold parse, mbind, M_bind, bind, fetch.
  rewrite Hget, for_articles_spec. cbn.
  unfold logger_info, mret, M_ret, ret. cbn. by rewrite <- app_assoc.
Qed.

(** What [parse] does when the session raises. *)
Lemma parse_raised self url w e :
  session_get url (self_headers self) = Raised e →
  parse' self url w =
    (Raise e,
     {| requests := requests w ++ [(url, self_headers self)];
        logged := logged w |}).
Proof.
  intros Hget.
  unfold parse, mbind, M_bind, bind, fetch.
  by rewrite Hget.
Qed.

(** The four loop bodies are one computation on the three values of the
    item, with or without the [if]. *)
Lemma item_of_fields c article :
  item_of' c article =
    if guarded c && negb (truthy (title_of c article)
                          && truthy (timestamp_of c article)
                          && truthy (url_of c article))
    then Return None
    else append_article
           (Article_init HttpUrl_ok (Some (self_source c)) (title_of c article)
              (timestamp_of c article) (url_of c article)).
Proof.
  destruct c; cbn [item_of guarded andb]; try reflexivity.
  - unfold RBCParser_item, title_of, timestamp_of, url_of, timestamp_element.
    by case_match.
  - unfold IXBTParser_item, title_of, timestamp_of, url_of, timestamp_element.
    by case_match.
  - unfold RIAParser_item, title_of, timestamp_of, url_of, timestamp_element.
    by case_match.
Qed.

(** An item yields an article exactly when it is accepted, and then it
    yields its record. *)
Lemma item_of_record c article :
  match item_of' c article with Return (Some a) => Some a | _ => None end
  = record_of HttpUrl_ok c article.
Proof.
  rewrite item_of_fields.
  unfold record_of, accepted, Article_init, Article_errors.
  destruct (guarded c), (title_of c article) as [[|? ?]|],
    (timestamp_of c article) as [[|? ?]|], (url_of c article) as [u|];
    cbn; try reflexivity;
    try (destruct u; cbn; try reflexivity);
    by destruct (HttpUrl_ok _).
Qed.

Lemma extracted_records c articles :
  extracted (item_of' c) articles = omap (record_of HttpUrl_ok c) articles.
Proof.
  unfold extracted. induction articles as [|article rest IH]; [done|].
  cbn. by rewrite item_of_record, IH.
Qed.

Lemma length_omap_filter {A B} (f : A → option B) (l : list A) :
  length (omap f l) = length (List.filter (fun x => bool_decide (is_Some (f x))) l).
Proof.
  induction l as [|x l IH]; [done|]. cbn.
  destruct (f x); cbn; by rewrite ?IH.
Qed.

Lemma record_of_is_Some c article :
  bool_decide (is_Some (record_of HttpUrl_ok c article))
  = accepted HttpUrl_ok c article.
Proof.
  unfold record_of. destruct (accepted HttpUrl_ok c article) eqn:Hwf; [|done].
  unfold accepted in Hwf.
  destruct (title_of c article), (url_of c article);
    rewrite ?andb_false_r in Hwf; try discriminate; done.
Qed.

(** The number of articles extracted is the number of accepted items. *)
Lemma length_extracted c articles :
  length (extracted (item_of' c) articles)
  = length (List.filter (accepted HttpUrl_ok c) articles).
Proof.
  rewrite extracted_records, length_omap_filter. f_equal.
  induction articles as [|article rest IH]; [done|].
  cbn. by rewrite record_of_is_Some, IH.
Qed.

(** Without the [if], every item either yields an article or raises. *)
Lemma left_out_unguarded c articles :
  guarded c = false → left_out (item_of' c) articles = [].
Proof.
  intros Hc. unfold left_out.
  induction articles as [|article rest IH]; [done|]. cbn [List.filter].
  rewrite item_of_fields, Hc. cbn [andb]. unfold append_article.
  by destruct (Article_init HttpUrl_ok _ _ _ _).
Qed.

Lemma item_yields_record c article a :
  item_of' c article = Return (Some a) → record_of HttpUrl_ok c article = Some a.
Proof. intros H. by rewrite <- item_of_record, H. Qed.

(** Every article a loop body appends carries the source of its class and
    a URL the model accepts. *)
Lemma emitted_url_valid c article a :
  item_of' c article = Return (Some a) →
  source a = self_source c ∧ HttpUrl_ok (url a) = true.
Proof.
  intros H%item_yields_record. unfold record_of in H.
  destruct (accepted HttpUrl_ok c article) eqn:Hwf; [|done].
  unfold accepted in Hwf.
  destruct (title_of c article), (url_of c article) as [u|];
    rewrite ?andb_false_r in Hwf; try discriminate.
  apply andb_prop in Hwf as [_ Hu]. by simplify_eq/=.
Qed.

(** The classes with the [if] append only articles whose title and
    timestamp are not empty. *)
Lemma guarded_emitted_title c article a :
  guarded c = true →
  item_of' c article = Return (Some a) →
  title a ≠ "" ∧ ∃ t, timestamp a = Some t ∧ t ≠ "".
Proof.
  intros Hc H%item_yields_record. unfold record_of in H.
  destruct (accepted HttpUrl_ok c article) eqn:Hwf; [|done].
  unfold accepted in Hwf. rewrite Hc in Hwf.
  destruct (title_of c article) as [[|? ?]|], (timestamp_of c article) as [[|? ?]|],
    (url_of c article) as [u|]; try discriminate.
  simplify_eq/=. split; [done|]. eexists; split; [done|done].
Qed.

(** Every record [parse] returns carries the source of its class and a URL
    the model accepts; with the [if], its title is not empty. *)
Lemma extracted_invariant c articles :
  Forall (fun a => source a = self_source c ∧ HttpUrl_ok (url a) = true
                   ∧ (guarded c = true → title a ≠ ""))
         (extracted (item_of' c) articles).
Proof.
  apply Forall_forall. intros a Ha. unfold extracted in Ha.
  apply list_elem_of_omap in Ha as (article & _ & Hitem).
  assert (Hyields : item_of' c article = Return (Some a)).
  { destruct (item_of' c article) as [[a'|]|]; by simplify_eq. }
  destruct (emitted_url_valid _ _ _ Hyields) as [Hsource Hurl].
  split_and!; [done|done|].
  intros Hc. by destruct (guarded_emitted_title _ _ _ Hc Hyields).
Qed.

(** C2.  In every parser, an item whose processing raises is logged and
    skipped: [parse] still returns, and what it returns is the articles of
    the items before it followed by the articles of the items after it, in
    document order. *)
Theorem parse_skips_raising_item self url w status html pre bad post e :
  session_get url (self_headers self) = Responded status html →
  articles_of (cls self) (BeautifulSoup html) = pre ++ bad :: post →
  item_of' (cls self) bad = Raise e →
  parse' self url w =
    (Return (extracted (item_of' (cls self)) pre
             ++ extracted (item_of' (cls self)) post),
     {| requests := requests w ++ [(url, self_headers self)];
        logged := logged w
                  ++ (LogError <$> faults (item_of' (cls self)) pre)
                  ++ [LogError e]
                  ++ (LogError <$> faults (item_of' (cls self)) post)
                  ++ [LogInfo (length (extracted (item_of' (cls self)) pre
                                       ++ extracted (item_of' (cls self)) post))
                              url] |}).
Proof.
  intros Hget Harticles Hbad.
  rewrite (parse_responded _ _ _ _ _ Hget). cbn zeta. rewrite Harticles.
  rewrite extracted_app, faults_app.
  rewrite (extracted_cons_raise _ _ _ _ Hbad), (faults_cons_raise _ _ _ _ Hbad).
  rewrite fmap_app, fmap_cons. by rewrite <- !app_assoc.
Qed.

Lemma truthy_Some t : truthy (Some t) = negb (String.eqb t "").
Proof. by destruct t. Qed.

Lemma title_of_stripped c article t :
  title_of c article = Some t → strip t = t.
Proof.
  unfold title_of. intros (e & _ & ->)%fmap_Some. apply strip_strip.
Qed.

Lemma self_source_not_empty c : String.eqb (self_source c) "" = false.
Proof. by destruct c. Qed.

(** Without the [if] the URL starts with the origin of the site. *)
Lemma url_of_unguarded_not_empty c article u :
  guarded c = false → url_of c article = Some u → String.eqb u "" = false.
Proof.
  destruct c; try discriminate. intros _. unfold url_of.
  intros (e & _ & (h & _ & ->)%fmap_Some)%bind_Some. done.
Qed.

(** The code against the spec, item by item.  A well-formed item, with a
    timestamp where the class has the [if], is accepted, and its record is
    its candidate.  Any other item the code accepts has a blank title. *)
Lemma accepted_well_formed c article :
  if well_formed HttpUrl_ok c article
     && (negb (guarded c) || truthy (timestamp_of c article))
  then ∃ a, candidate c article = Some a ∧ record_of HttpUrl_ok c article = Some a
            ∧ blank_title a = false
  else record_of HttpUrl_ok c article = None
       ∨ ∃ a, record_of HttpUrl_ok c article = Some a ∧ blank_title a = true.
Proof.
  unfold well_formed, candidate, record_of, accepted, valid_record, blank_title.
  destruct (title_of c article) as [t|] eqn:Ht; cbn -[strip];
    [|left; by destruct (guarded c)].
  destruct (url_of c article) as [u|] eqn:Hu; cbn -[strip];
    [|rewrite andb_false_r; by left].
  rewrite (title_of_stripped _ _ _ Ht), self_source_not_empty.
  destruct (guarded c) eqn:Hc.
  - destruct t as [|? ?], u as [|? ?], (truthy (timestamp_of c article));
      cbn; try destruct (HttpUrl_ok _); cbn; try (by left).
    eexists. split_and!; [done|done|]. cbn -[strip].
    by rewrite (title_of_stripped _ _ _ Ht).
  - pose proof (url_of_unguarded_not_empty _ _ _ Hc Hu) as Hnot.
    destruct u as [|? ?]; [done|].
    destruct t as [|? ?]; cbn; destruct (HttpUrl_ok _); cbn; try (by left).
    + right. eexists. by split.
    + eexists. split_and!; [done|done|]. cbn -[strip].
      by rewrite (title_of_stripped _ _ _ Ht).
Qed.

(** The records with a title, among those of a page, are the candidates of
    its well-formed items, with a timestamp where the class has the [if],
    in the order of the page. *)
Lemma titled_records c articles :
  List.filter (fun a => negb (blank_title a)) (omap (record_of HttpUrl_ok c) articles)
  = omap (candidate c)
      (List.filter (fun article =>
                      well_formed HttpUrl_ok c article
                      && (negb (guarded c) || truthy (timestamp_of c article)))
                   articles).
Proof.
  induction articles as [|article rest IH]; [done|].
  pose proof (accepted_well_formed c article) as Hitem. cbn.
  destruct (well_formed HttpUrl_ok c article
            && (negb (guarded c) || truthy (timestamp_of c article))).
  - destruct Hitem as (a & Hcand & Hrec & Hblank). cbn.
    rewrite Hrec, Hcand. cbn. rewrite Hblank. cbn. by rewrite IH.
  - destruct Hitem as [Hrec|(a & Hrec & Hblank)]; rewrite Hrec; [done|].
    cbn. by rewrite Hblank.
Qed.

(** With the [if], no record has a blank title. *)
Lemma guarded_records_titled c articles :
  guarded c = true →
  List.filter (fun a => negb (blank_title a)) (omap (record_of HttpUrl_ok c) articles)
  = omap (record_of HttpUrl_ok c) articles.
Proof.
  intros Hc. induction articles as [|article rest IH]; [done|]. cbn.
  destruct (record_of HttpUrl_ok c article) as [a|] eqn:Hrec; [|done]. cbn.
  assert (Hblank : blank_title a = false).
  { unfold record_of, accepted in Hrec. rewrite Hc in Hrec.
    destruct (title_of c article) as [t|] eqn:Ht; [|done].
    destruct (url_of c article) as [u|]; [|by rewrite andb_false_r in Hrec].
    rewrite truthy_Some in Hrec.
    destruct (String.eqb t "") eqn:Hblank; [done|].
    destruct (_ && _); [|done]. cbn in Hrec. injection Hrec as <-.
    unfold blank_title. cbn -[strip]. by rewrite (title_of_stripped _ _ _ Ht). }
  by rewrite Hblank, IH.
Qed.

(** A well-formed item has a candidate. *)
Lemma length_candidates c articles :
  length (omap (candidate c) (List.filter (well_formed HttpUrl_ok c) articles))
  = length (List.filter (well_formed HttpUrl_ok c) articles).
Proof.
  induction articles as [|article rest IH]; [done|]. cbn.
  destruct (well_formed HttpUrl_ok c article) eqn:Hwf; [|done]. cbn.
  unfold well_formed in Hwf.
  destruct (candidate c article); [|done]. cbn. by rewrite IH.
Qed.

(** C4, as amended.  An item is well formed, in the words of the spec, when
    its title is not empty once stripped and its URL is a valid absolute
    URL, with or without a timestamp.  [parse] returns the records of the
    well-formed items in the order of the page, except that RBC, IXBT and
    RIA return one only for the well-formed items that have a timestamp:
    these are all the records it returns, but for records with a blank
    title, about which nothing is said here.  So where there is no [if] the
    records with a title number K.  [parse] logs the number of records it
    returns and one error for each item that raised; the items the [if]
    leaves out are not logged, and no number of drops is computed: returned,
    raised and left-out items make up the N items. *)
Theorem parse_returns_well_formed self url w status html :
  session_get url (self_headers self) = Responded status html →
  let c := cls self in
  let articles := articles_of c (BeautifulSoup html) in
  let titled := List.filter (fun a => negb (blank_title a)) in
  ∃ returned,
    parse' self url w =
      (Return returned,
       {| requests := requests w ++ [(url, self_headers self)];
          logged := logged w ++ (LogError <$> faults (item_of' c) articles)
                    ++ [LogInfo (length returned) url] |})
    ∧ titled returned
      = omap (candidate c)
          (List.filter (fun article =>
                          well_formed HttpUrl_ok c article
                          && (negb (guarded c) || truthy (timestamp_of c article)))
                       articles)
    ∧ (guarded c = true → titled returned = returned)
    ∧ (guarded c = false →
       length (titled returned)
       = length (List.filter (well_formed HttpUrl_ok c) articles))
    ∧ length returned + length (faults (item_of' c) articles)
      + length (left_out (item_of' c) articles) = length articles.
Proof.
  intros Hget c articles titled.
  exists (omap (record_of HttpUrl_ok c) articles). split_and!.
  - rewrite (parse_responded _ _ _ _ _ Hget). cbn zeta.
    fold c articles. by rewrite extracted_records.
  - apply titled_records.
  - apply guarded_records_titled.
  - intros Hc. unfold titled. rewrite titled_records, Hc. cbn [negb orb].
    rewrite <- length_candidates. do 2 f_equal.
    clear. induction articles as [|article rest IH]; [done|]. cbn.
    rewrite andb_true_r. by rewrite IH.
  - rewrite <- extracted_records. apply items_partition.
Qed.

(** C5, as amended.  An item without the element that carries the time is
    kept by Kommersant, whose record then has no timestamp, which the schema
    dumps as null; RBC, IXBT and RIA leave such an item out. *)
Theorem absent_timestamp c article :
  timestamp_element c article = None →
  (c ≠ KommersantParser → item_of' c article = Return None)
  ∧ (c = KommersantParser →
     ∀ t u, title_of c article = Some t → url_of c article = Some u →
       HttpUrl_ok u = true →
       let a := {| source := "Kommersant"; title := t; timestamp := None;
                   url := u |} in
       item_of' c article = Return (Some a)
       ∧ ArticleSchema_dump a !! "timestamp" = Some JNull).
Proof.
  intros Hts. rewrite item_of_fields. unfold timestamp_of. rewrite Hts.
  split.
  - intros Hc. destruct c; [done|..]; cbn; by rewrite andb_false_r.
  - intros -> t u Ht Hu Hok. cbn zeta. rewrite Ht, Hu. cbn.
    unfold Article_init, Article_errors. by rewrite Hok.
Qed.

(** C6, as amended.  [fetch] sends exactly one request and does not look at
    the status of the response: it raises what the client raises, and
    returns the body of any response.  Nothing in [parse] sends another
    request: a whole [run] sends exactly one. *)
Theorem fetch_one_request self url w :
  (fetch session_get self url w).1 =
    match session_get url (self_headers self) with
    | Raised e => Raise e
    | Responded _ body => Return body
    end
  ∧ requests (fetch session_get self url w).2
    = requests w ++ [(url, self_headers self)]
  ∧ requests (run HttpUrl_ok BeautifulSoup session_get self).2
    = [(self_url self, self_headers self)].
Proof.
  split_and!.
  - unfold fetch. by destruct (session_get _ _).
  - unfold fetch. by destruct (session_get _ _).
  - unfold run.
    destruct (session_get (self_url self) (self_headers self)) as [e|status html] eqn:Hget.
    + by rewrite (parse_raised _ _ _ _ Hget).
    + by rewrite (parse_responded _ _ _ _ _ Hget).
Qed.

(** C7.  On a page where the [find_all] of the class finds no item, [parse]
    returns the empty list and does not raise. *)
Theorem parse_no_items self url w status html :
  session_get url (self_headers self) = Responded status html →
  articles_of (cls self) (BeautifulSoup html) = [] →
  parse' self url w =
    (Return [],
     {| requests := requests w ++ [(url, self_headers self)];
        logged := logged w ++ [LogInfo 0 url] |}).
Proof.
  intros Hget Hnone.
  rewrite (parse_responded _ _ _ _ _ Hget). cbn zeta. by rewrite Hnone.
Qed.

End Extraction.

Section Gather.

Context {A : Type}.
Implicit Types (outcomes : list (result A)) (order finished : list nat).

Lemma marked_nil outcomes : marked outcomes [] = replicate (length outcomes) None.
Proof.
  apply list_eq; intros j. unfold marked. rewrite list_lookup_imap.
  destruct (outcomes !! j) as [r|] eqn:Hj; cbn.
  - symmetry. apply lookup_replicate_2. by eapply lookup_lt_Some.
  - symmetry. apply lookup_replicate_None. by apply lookup_ge_None.
Qed.

Lemma marked_snoc outcomes finished i r :
  outcomes !! i = Some r →
  <[i := Some r]> (marked outcomes finished) = marked outcomes (finished ++ [i]).
Proof.
  intros Hi. apply list_eq; intros j. unfold marked.
  destruct (decide (j = i)) as [->|Hne].
  - rewrite list_lookup_insert_eq, list_lookup_imap, Hi; cbn.
    + rewrite bool_decide_eq_true_2; [done|]. set_solver.
    + rewrite length_imap. by eapply lookup_lt_Some.
  - rewrite list_lookup_insert_ne by done. rewrite !list_lookup_imap.
    destruct (outcomes !! j); [cbn|done].
    rewrite (bool_decide_ext (j ∈ finished) (j ∈ finished ++ [i])); [done|].
    rewrite elem_of_app, list_elem_of_singleton. naive_solver.
Qed.

Lemma marked_all outcomes finished :
  (∀ j, j < length outcomes → j ∈ finished) →
  marked outcomes finished = Some <$> outcomes.
Proof.
  intros Hall. apply list_eq; intros j. unfold marked.
  rewrite list_lookup_imap, list_lookup_fmap.
  destruct (outcomes !! j) eqn:Hj; [cbn|done].
  rewrite bool_decide_eq_true_2; [done|]. apply Hall. by eapply lookup_lt_Some.
Qed.

Lemma first_raised_snoc outcomes finished i :
  first_raised outcomes (finished ++ [i]) =
    match first_raised outcomes finished with
    | Some e => Some e
    | None => match outcomes !! i with Some (Raise e) => Some e | _ => None end
    end.
Proof.
  induction finished as [|j finished IH]; cbn.
  - by destruct (outcomes !! i) as [[|]|].
  - by destruct (outcomes !! j) as [[|]|].
Qed.

(** While some child is pending, the outer future is pending too unless a
    child has raised. *)
Lemma gather_pending outcomes finished :
  NoDup finished →
  (∀ i, i ∈ finished → i < length outcomes) →
  length finished < length outcomes →
  foldl (child_done outcomes) (gather_init (length outcomes)) finished =
    {| children := marked outcomes finished;
       nfinished := length finished;
       outer := Raise <$> first_raised outcomes finished |}.
Proof.
  induction finished as [|i finished IH] using rev_ind; intros Hnd Hlt Hlen.
  - cbn. unfold gather_init. rewrite marked_nil.
    destruct (Nat.eqb_spec (length outcomes) 0) as [H0|_]; [cbn in Hlen; lia|done].
  - apply NoDup_app in Hnd as (Hnd & Hfresh & _).
    rewrite length_app in Hlen. cbn in Hlen.
    rewrite foldl_snoc, IH; [|done|set_solver|lia].
    destruct (lookup_lt_is_Some_2 outcomes i) as [r Hi]; [apply Hlt; set_solver|].
    unfold child_done. rewrite Hi. unfold done_callback.
    cbn [children nfinished outer].
    rewrite (marked_snoc _ _ _ _ Hi), first_raised_snoc, Hi, length_app.
    cbn [length]. rewrite Nat.add_1_r. f_equal.
    destruct (first_raised outcomes finished); [done|].
    destruct r; [|done].
    by rewrite (proj2 (Nat.eqb_neq _ _)) by lia.
Qed.

(** What the caller of [gather] sees once every task has finished: the
    exception of the first task that raised, or else all the results in the
    order of the tasks. *)
Lemma gather_spec outcomes order :
  order ≡ₚ seq 0 (length outcomes) →
  gather outcomes order =
    Some (match first_raised outcomes order with
          | Some e => Raise e
          | None => Return (results_of (Some <$> outcomes))
          end).
Proof.
  intros Hperm.
  assert (Hnd : NoDup order) by (rewrite Hperm; apply NoDup_seq).
  assert (Hin : ∀ i, i ∈ order ↔ i < length outcomes).
  { intros i. rewrite Hperm, elem_of_seq. lia. }
  assert (Hlen : length order = length outcomes) by by rewrite Hperm, length_seq.
  unfold gather.
  destruct order as [|i finished _] using rev_ind.
  - cbn in *. rewrite <- Hlen. cbn.
    destruct outcomes; [done|discriminate].
  - apply NoDup_app in Hnd as (Hnd & Hfresh & _).
    rewrite length_app in Hlen. cbn in Hlen.
    rewrite foldl_snoc, gather_pending; [|done|intros j Hj; apply Hin; set_solver|lia].
    destruct (lookup_lt_is_Some_2 outcomes i) as [r Hi]; [apply Hin; set_solver|].
    unfold child_done. rewrite Hi. unfold done_callback.
    cbn [children nfinished outer].
    rewrite (marked_snoc _ _ _ _ Hi), first_raised_snoc, Hi.
    destruct (first_raised outcomes finished); [done|].
    destruct r; [|done].
    rewrite (proj2 (Nat.eqb_eq _ _)) by lia.
    rewrite marked_all; [done|]. intros j Hj. by apply Hin.
Qed.

Lemma first_raised_all_return outcomes order :
  Forall (fun r => ∃ a, r = Return a) outcomes →
  first_raised outcomes order = None.
Proof.
  intros Hall. induction order as [|i order IH]; [done|]. cbn.
  destruct (outcomes !! i) as [r|] eqn:Hi; [|done].
  by destruct (Forall_lookup_1 _ _ _ _ Hall Hi) as [a ->].
Qed.

Lemma first_raised_some outcomes order i e :
  i ∈ order → outcomes !! i = Some (Raise e) →
  ∃ j e', j ∈ order ∧ outcomes !! j = Some (Raise e')
          ∧ first_raised outcomes order = Some e'.
Proof.
  intros Hi He. induction order as [|k order IH]; [set_solver|]. cbn.
  destruct (outcomes !! k) as [[a|e']|] eqn:Hk.
  - destruct IH as (j & e' & ? & ? & ?); [set_solver|].
    exists j, e'. set_solver.
  - exists k, e'. set_solver.
  - destruct IH as (j & e' & ? & ? & ?); [|exists j, e'; set_solver].
    apply elem_of_cons in Hi as [->|]; [congruence|done].
Qed.

End Gather.

Section Schema.

Variable HttpUrl_ok : string → bool.
Variable fields_Url_ok : string → bool.

Lemma dom_dump (a : Article) :
  dom (ArticleSchema_dump a)
  = ({["source"; "title"; "timestamp"; "url"]} : gset string).
Proof.
  unfold ArticleSchema_dump. rewrite !dom_insert_L, dom_empty_L. set_solver.
Qed.

Lemma articles_list_concat (results : list (list Article)) :
  articles_list results = ArticleSchema_dump <$> concat results.
Proof.
  unfold articles_list.
  assert (Hinner : ∀ (r : list Article) acc,
            foldl (fun acc article => acc ++ [ArticleSchema_dump article]) acc r
            = acc ++ (ArticleSchema_dump <$> r)).
  { induction r as [|a r IH]; intros acc; cbn.
    - by rewrite app_nil_r.
    - by rewrite IH, <- app_assoc. }
  assert (Houter : ∀ (rs : list (list Article)) acc,
            foldl (fun acc result =>
                     foldl (fun acc article => acc ++ [ArticleSchema_dump article])
                           acc result) acc rs
            = acc ++ (ArticleSchema_dump <$> concat rs)).
  { induction rs as [|r rs IH]; intros acc; cbn.
    - by rewrite app_nil_r.
    - by rewrite IH, Hinner, fmap_app, <- app_assoc. }
  apply (Houter results []).
Qed.

Lemma filter_none {X} (f : X → bool) (l : list X) :
  (∀ x, x ∈ l → f x = false) → List.filter f l = [].
Proof.
  induction l as [|x l IH]; intros Hl; [done|]. cbn.
  rewrite (Hl x) by set_solver. apply IH. intros y Hy. apply Hl. set_solver.
Qed.

(** The keys of a dumped article are all declared fields. *)
Lemma dump_no_unknown (a : Article) :
  List.filter (fun k => negb (str_in k declared_fields))
    (elements (dom (ArticleSchema_dump a))) = [].
Proof.
  apply filter_none. intros k Hk. apply elem_of_elements in Hk.
  rewrite dom_dump in Hk. set_unfold in Hk.
  by destruct Hk as [[[->| ->]| ->]| ->].
Qed.

(** The schema refuses the dump of an article whose URL its own validator
    does not accept. *)
Lemma dump_load_rejected (a : Article) :
  fields_Url_ok (url a) = false →
  ArticleSchema_load HttpUrl_ok fields_Url_ok (ArticleSchema_dump a)
  = Raise (SchemaError ["url"]).
Proof.
  intros Hurl. unfold ArticleSchema_load. rewrite dump_no_unknown.
  unfold ArticleSchema_dump, Url_deserialize. simplify_map_eq. cbn.
  rewrite Hurl. by destruct (timestamp a).
Qed.

(** C9.  What [save_to_json] writes for the results of a run is an array
    with one object per article, in the order of the results; each object
    has exactly the keys source, title, timestamp and url, and the
    timestamp of an article that has none is an explicit null. *)
Theorem saved_array_of_objects (results : list (list Article)) :
  save_to_json (articles_list results)
  = JArr (JObj <$> (ArticleSchema_dump <$> concat results))
  ∧ Forall (fun a =>
              dom (ArticleSchema_dump a)
              = ({["source"; "title"; "timestamp"; "url"]} : gset string)
              ∧ ArticleSchema_dump a !! "source" = Some (JStr (source a))
              ∧ ArticleSchema_dump a !! "title" = Some (JStr (title a))
              ∧ ArticleSchema_dump a !! "timestamp"
                = Some (match timestamp a with
                        | None => JNull
                        | Some t => JStr t
                        end)
              ∧ ArticleSchema_dump a !! "url" = Some (JStr (url a)))
           (concat results).
Proof.
  split.
  - unfold save_to_json. by rewrite articles_list_concat.
  - apply Forall_forall. intros a _. split; [apply dom_dump|].
    unfold ArticleSchema_dump. by destruct (timestamp a); simplify_map_eq.
Qed.

(** C10, as amended.  Dumping an article and loading the dump gives the
    article back when its URL passes both validators: the model's, as for
    every article, and the one of the schema's [Url] field. *)
Theorem dump_load_roundtrip (a : Article) :
  HttpUrl_ok (url a) = true →
  fields_Url_ok (url a) = true →
  ArticleSchema_load HttpUrl_ok fields_Url_ok (ArticleSchema_dump a) = Return a.
Proof.
  intros Hmodel Hschema. unfold ArticleSchema_load. rewrite dump_no_unknown.
  unfold ArticleSchema_dump, Url_deserialize. simplify_map_eq. cbn.
  rewrite Hschema.
  destruct a as [s t [ts|] u]; cbn in *;
    unfold make_article, Article_init, Article_errors; cbn; by rewrite Hmodel.
Qed.

End Schema.

Section Orchestration.

Variable HttpUrl_ok : string → bool.
Variable BeautifulSoup : string → PageElement.
Variable session_get : string → Headers → get_outcome.

Local Abbreviation run' := (run HttpUrl_ok BeautifulSoup session_get).
Local Abbreviation main' := (main HttpUrl_ok BeautifulSoup session_get).
Local Abbreviation etl_main' := (etl_main HttpUrl_ok BeautifulSoup session_get).

(** The records [parse] finds on a page. *)
Local Abbreviation found c html :=
  (omap (record_of HttpUrl_ok c) (articles_of c (BeautifulSoup html))).

Lemma run_responded self status html :
  session_get (self_url self) (self_headers self) = Responded status html →
  (run' self).1 = Return (found (cls self) html).
Proof.
  intros Hget. unfold run.
  rewrite (parse_responded _ _ _ _ _ _ _ _ Hget). cbn.
  apply f_equal, extracted_records.
Qed.

(** A run raises only what its one request raises. *)
Lemma run_raises self e :
  (run' self).1 = Raise e ↔
  session_get (self_url self) (self_headers self) = Raised e.
Proof.
  unfold run.
  destruct (session_get (self_url self) (self_headers self)) as [e'|status html] eqn:Hget.
  - rewrite (parse_raised _ _ _ _ _ _ _ Hget). cbn. naive_solver.
  - rewrite (parse_responded _ _ _ _ _ _ _ _ Hget). cbn. naive_solver.
Qed.

(** C1, as amended.  When the request of one of the four parsers raises,
    [gather] hands the caller the exception of the first task to fail, in
    whatever order the tasks finish: [multi_parser.main] raises it and
    returns the records of no parser, and [etl_pipe.main] ends with it
    before anything is written. *)
Theorem main_raises_with_first_failure order i self e :
  order ≡ₚ [0; 1; 2; 3] →
  tasks !! i = Some self →
  session_get (self_url self) (self_headers self) = Raised e →
  ∃ j other e',
    tasks !! j = Some other
    ∧ session_get (self_url other) (self_headers other) = Raised e'
    ∧ first_raised ((fun p => (run' p).1) <$> tasks) order = Some e'
    ∧ main' order = Some (Raise e')
    ∧ etl_main' order = Some (Raise e').
Proof.
  intros Hperm Hi Hraised%run_raises.
  set (outcomes := (fun p => (run' p).1) <$> tasks).
  assert (Hspec := gather_spec outcomes order Hperm).
  destruct (first_raised_some outcomes order i e) as (j & e' & _ & Hj & Hfirst).
  - apply lookup_lt_Some in Hi. rewrite Hperm. cbn in Hi. set_unfold. lia.
  - subst outcomes. by rewrite list_lookup_fmap, Hi; cbn; rewrite Hraised.
  - rewrite Hfirst in Hspec. subst outcomes.
    rewrite list_lookup_fmap in Hj.
    destruct (tasks !! j) as [other|] eqn:Hother; [|done].
    cbn in Hj. injection Hj as Hj. apply run_raises in Hj.
    exists j, other, e'. split_and!; [done|done|done|exact Hspec|].
    unfold etl_main. fold main'. unfold main. by rewrite Hspec.
Qed.

(** C8.  When every site answers, [multi_parser.main] returns the four
    lists of records in the order of [tasks], whatever the order in which
    the tasks finish, and [etl_pipe.main] writes them flattened in that
    order, each list in the order of its page. *)
Theorem main_in_registration_order order s0 h0 s1 h1 s2 h2 s3 h3 :
  order ≡ₚ [0; 1; 2; 3] →
  session_get (self_url kommersant_parser) None = Responded s0 h0 →
  session_get (self_url rbc_parser) None = Responded s1 h1 →
  session_get (self_url ixbt_parser) None = Responded s2 h2 →
  session_get (self_url ria_parser) None = Responded s3 h3 →
  main' order =
    Some (Return [found KommersantParser h0; found RBCParser h1;
                  found IXBTParser h2; found RIAParser h3])
  ∧ etl_main' order =
      Some (Return (JArr (JObj <$> (ArticleSchema_dump <$>
              (found KommersantParser h0 ++ found RBCParser h1
               ++ found IXBTParser h2 ++ found RIAParser h3))))).
Proof.
  intros Hperm H0 H1 H2 H3.
  assert (Hmain : main' order =
    Some (Return [found KommersantParser h0; found RBCParser h1;
                  found IXBTParser h2; found RIAParser h3])).
  { unfold main. rewrite gather_spec by exact Hperm.
    unfold tasks. cbn [fmap list_fmap].
    rewrite (run_responded kommersant_parser _ _ H0),
      (run_responded rbc_parser _ _ H1), (run_responded ixbt_parser _ _ H2),
      (run_responded ria_parser _ _ H3).
    rewrite first_raised_all_return; [done|].
    repeat constructor; eauto. }
  split; [exact Hmain|].
  unfold etl_main. rewrite Hmain. cbn [fmap option_fmap option_map].
  unfold save_to_json. rewrite articles_list_concat. cbn [concat].
  by rewrite app_nil_r.
Qed.

End Orchestration.

(** * The properties on the sample inputs *)

(** On the sample network where Kommersant is unreachable, the other three
    parsers extract their records, and still the run returns none of them
    and writes nothing, although Kommersant's task is the last to finish. *)
Lemma one_failure_discards_all_results :
  let run' := run sample_HttpUrl sample_BeautifulSoup sample_get_kommersant_down in
  (run' kommersant_parser).1 = Raise (ClientError "connection refused")
  ∧ (run' rbc_parser).1
    = Return [{| source := "RBC"; title := "Telecom merger";
                 timestamp := Some "09:30";
                 url := "https://www.rbc.ru/technology_and_media/1" |}]
  ∧ (run' ixbt_parser).1
    = Return [{| source := "IXBT"; title := "New GPU";
                 timestamp := Some "12:00";
                 url := "https://www.ixbt.com/news/2024/01/01/gpu.html#comments" |}]
  ∧ (run' ria_parser).1
    = Return [{| source := "RIA"; title := "Rocket launch";
                 timestamp := Some "Yesterday, 20:00";
                 url := "https://ria.ru/20240101/launch.html" |}]
  ∧ main sample_HttpUrl sample_BeautifulSoup sample_get_kommersant_down [1; 2; 3; 0]
    = Some (Raise (ClientError "connection refused"))
  ∧ etl_main sample_HttpUrl sample_BeautifulSoup sample_get_kommersant_down [1; 2; 3; 0]
    = Some (Raise (ClientError "connection refused")).
Proof. vm_compute. by split_and!. Qed.

Lemma main_raises_with_first_failure_witness :
  ∃ j other e',
    tasks !! j = Some other
    ∧ sample_get_kommersant_down (self_url other) (self_headers other) = Raised e'
    ∧ first_raised
        ((fun p => (run sample_HttpUrl sample_BeautifulSoup
                      sample_get_kommersant_down p).1) <$> tasks)
        [1; 2; 3; 0] = Some e'
    ∧ main sample_HttpUrl sample_BeautifulSoup sample_get_kommersant_down [1; 2; 3; 0]
      = Some (Raise e')
    ∧ etl_main sample_HttpUrl sample_BeautifulSoup sample_get_kommersant_down [1; 2; 3; 0]
      = Some (Raise e').
Proof.
  apply (main_raises_with_first_failure sample_HttpUrl sample_BeautifulSoup
           sample_get_kommersant_down [1; 2; 3; 0] 0 kommersant_parser
           (ClientError "connection refused")).
  - change [1; 2; 3; 0] with ([1; 2; 3] ++ [0]).
    change [0; 1; 2; 3] with ([0] ++ [1; 2; 3]). apply Permutation_app_comm.
  - reflexivity.
  - reflexivity.
Defined.

Lemma parse_skips_raising_item_witness :
  parse sample_HttpUrl sample_BeautifulSoup sample_get kommersant_parser
    (self_url kommersant_parser) fresh
  = (Return [{| source := "Kommersant"; title := "Chip prices fall";
                timestamp := Some "10:15";
                url := "https://www.kommersant.ru/doc/1" |};
             {| source := "Kommersant"; title := "New satellite";
                timestamp := None;
                url := "https://www.kommersant.ru/doc/4" |}],
     {| requests := [(self_url kommersant_parser, None)];
        logged := [LogError (ValidationError ["title"]);
                   LogInfo 2 (self_url kommersant_parser)] |}).
Proof.
  exact (parse_skips_raising_item sample_HttpUrl sample_BeautifulSoup sample_get
           kommersant_parser (self_url kommersant_parser) fresh 200
           kommersant_html [kommersant_full] kommersant_no_title
           [kommersant_no_time] (ValidationError ["title"])
           eq_refl eq_refl eq_refl).
Defined.

(** C3.  Kommersant's loop body has no [if title and ...]: on a page whose
    item has a title span holding only a blank, the run returns a record
    with an empty title. *)
Theorem kommersant_emits_empty_title :
  (run sample_HttpUrl sample_BeautifulSoup sample_get_blank_title
     kommersant_parser).1
  = Return [{| source := "Kommersant"; title := ""; timestamp := None;
               url := "https://www.kommersant.ru/doc/2" |}].
Proof. reflexivity. Qed.

(** Two RBC pages with a single item.  On the first the item has no title:
    N = 1 and K = 0, nothing is returned, and the log holds no error, so
    that the drop is not reported.  On the second the item has no
    timestamp: it is well formed, N = 1 and K = 1, and nothing is
    returned. *)
Lemma rbc_drop_is_not_reported :
  let out := run sample_HttpUrl sample_BeautifulSoup sample_get_rbc_no_title
               rbc_parser in
  let articles := articles_of RBCParser (sample_BeautifulSoup rbc_no_title_html) in
  let out' := run sample_HttpUrl sample_BeautifulSoup sample_get_rbc_no_time
                rbc_parser in
  let articles' := articles_of RBCParser (sample_BeautifulSoup rbc_no_time_html) in
  (length articles = 1
   ∧ length (List.filter (well_formed sample_HttpUrl RBCParser) articles) = 0
   ∧ out.1 = Return []
   ∧ logged out.2 = [LogInfo 0 (self_url rbc_parser)]
   ∧ length (List.filter is_error (logged out.2))
     ≠ length articles
       - length (List.filter (well_formed sample_HttpUrl RBCParser) articles))
  ∧ (length articles' = 1
     ∧ length (List.filter (well_formed sample_HttpUrl RBCParser) articles') = 1
     ∧ out'.1 = Return []).
Proof. vm_compute. by split_and!. Qed.

Lemma parse_returns_well_formed_witness :
  let c := KommersantParser in
  let articles := articles_of c (sample_BeautifulSoup kommersant_html) in
  let titled := List.filter (fun a => negb (blank_title a)) in
  ∃ returned,
    parse sample_HttpUrl sample_BeautifulSoup sample_get kommersant_parser
      (self_url kommersant_parser) fresh
    = (Return returned,
       {| requests := [(self_url kommersant_parser, None)];
          logged := (LogError <$> faults (item_of sample_HttpUrl c) articles)
                    ++ [LogInfo (length returned) (self_url kommersant_parser)] |})
    ∧ titled returned
      = omap (candidate c)
          (List.filter (fun article =>
                          well_formed sample_HttpUrl c article
                          && (negb (guarded c) || truthy (timestamp_of c article)))
                       articles)
    ∧ (guarded c = true → titled returned = returned)
    ∧ (guarded c = false →
       length (titled returned)
       = length (List.filter (well_formed sample_HttpUrl c) articles))
    ∧ length returned + length (faults (item_of sample_HttpUrl c) articles)
      + length (left_out (item_of sample_HttpUrl c) articles) = length articles.
Proof.
  exact (parse_returns_well_formed sample_HttpUrl sample_BeautifulSoup
           sample_get kommersant_parser (self_url kommersant_parser) fresh 200
           kommersant_html eq_refl).
Defined.

(** An RBC item with a title and a link the model accepts, but without the
    category span, yields no record; nor do the IXBT and RIA items without
    their time element. *)
Lemma rbc_item_without_time_is_left_out :
  timestamp_element RBCParser rbc_no_time = None
  ∧ title_of RBCParser rbc_no_time = Some "Cloud tariffs"
  ∧ url_of RBCParser rbc_no_time = Some "https://www.rbc.ru/technology_and_media/3"
  ∧ sample_HttpUrl "https://www.rbc.ru/technology_and_media/3" = true
  ∧ RBCParser_item sample_HttpUrl rbc_no_time = Return None
  ∧ IXBTParser_item sample_HttpUrl ixbt_no_time = Return None
  ∧ RIAParser_item sample_HttpUrl ria_no_time = Return None.
Proof. vm_compute. by split_and!. Qed.

Lemma absent_timestamp_witness :
  timestamp_element KommersantParser kommersant_no_time = None
  ∧ KommersantParser_item sample_HttpUrl kommersant_no_time
    = Return (Some {| source := "Kommersant"; title := "New satellite";
                      timestamp := None;
                      url := "https://www.kommersant.ru/doc/4" |}).
Proof.
  split; [reflexivity|].
  exact (proj1 (proj2 (absent_timestamp sample_HttpUrl KommersantParser
                         kommersant_no_time eq_refl)
                  eq_refl "New satellite" "https://www.kommersant.ru/doc/4"
                  eq_refl eq_refl eq_refl)).
Defined.

(** A response with status 404 is returned as a document. *)
Lemma fetch_returns_body_of_404 :
  sample_get "https://www.kommersant.ru/missing" None = Responded 404 "Not Found"
  ∧ (fetch sample_get kommersant_parser "https://www.kommersant.ru/missing" fresh).1
    = Return "Not Found".
Proof. split; reflexivity. Qed.

Lemma parse_no_items_witness :
  let session_get := fun (_ : string) (_ : Headers) => Responded 200 no_items_html in
  articles_of IXBTParser (sample_BeautifulSoup no_items_html) = []
  ∧ parse sample_HttpUrl sample_BeautifulSoup session_get ixbt_parser
      (self_url ixbt_parser) fresh
    = (Return [],
       {| requests := [(self_url ixbt_parser, None)];
          logged := [LogInfo 0 (self_url ixbt_parser)] |}).
Proof.
  split; [reflexivity|].
  exact (parse_no_items sample_HttpUrl sample_BeautifulSoup
           (fun _ _ => Responded 200 no_items_html) ixbt_parser
           (self_url ixbt_parser) fresh 200 no_items_html
           eq_refl eq_refl).
Defined.

Lemma main_in_registration_order_witness :
  let found c html :=
    omap (record_of sample_HttpUrl c) (articles_of c (sample_BeautifulSoup html)) in
  main sample_HttpUrl sample_BeautifulSoup sample_get [2; 0; 3; 1]
  = Some (Return [found KommersantParser kommersant_html; found RBCParser rbc_html;
                  found IXBTParser ixbt_html; found RIAParser ria_html])
  ∧ etl_main sample_HttpUrl sample_BeautifulSoup sample_get [2; 0; 3; 1]
    = Some (Return (JArr (JObj <$> (ArticleSchema_dump <$>
              (found KommersantParser kommersant_html ++ found RBCParser rbc_html
               ++ found IXBTParser ixbt_html ++ found RIAParser ria_html))))).
Proof.
  apply (main_in_registration_order sample_HttpUrl sample_BeautifulSoup sample_get
           [2; 0; 3; 1] 200 kommersant_html 200 rbc_html 200 ixbt_html
           200 ria_html); [|reflexivity..].
  apply (Permutation_trans (l' := [0; 2; 3; 1])); [apply perm_swap|].
  apply perm_skip.
  change [2; 3; 1] with ([2; 3] ++ [1]). change [1; 2; 3] with ([1] ++ [2; 3]).
  apply Permutation_app_comm.
Defined.

(** The model accepts the URL of [underscore_article], the schema's field
    does not: loading the dump of the article raises. *)
Lemma dump_load_fails_on_underscore_host :
  Article_init sample_HttpUrl (Some "RBC") (Some "Hosting") None
    (Some "https://a_b.ru/x") = Return underscore_article
  ∧ ArticleSchema_load sample_HttpUrl sample_fields_Url
      (ArticleSchema_dump underscore_article)
    = Raise (SchemaError ["url"]).
Proof.
  split; [reflexivity|]. vm_compute. reflexivity.
Qed.

Lemma dump_load_roundtrip_witness :
  let a := {| source := "RIA"; title := "Rocket launch"; timestamp := None;
              url := "https://ria.ru/20240101/launch.html" |} in
  sample_HttpUrl (url a) = true ∧ sample_fields_Url (url a) = true
  ∧ ArticleSchema_load sample_HttpUrl sample_fields_Url (ArticleSchema_dump a)
    = Return a.
Proof.
  split_and!; [reflexivity..|].
  exact (dump_load_roundtrip sample_HttpUrl sample_fields_Url
           {| source := "RIA"; title := "Rocket launch"; timestamp := None;
              url := "https://ria.ru/20240101/launch.html" |} eq_refl eq_refl).
Defined.

(** * Further properties of the code *)

Section Records.

Variable HttpUrl_ok : string → bool.
Variable BeautifulSoup : string → PageElement.
Variable session_get : string → Headers → get_outcome.

Local Abbreviation run' := (run HttpUrl_ok BeautifulSoup session_get).
Local Abbreviation item_of' := (item_of HttpUrl_ok).

(** What a record says about the item it was built from. *)
Lemma record_of_fields c article a :
  record_of HttpUrl_ok c article = Some a →
  accepted HttpUrl_ok c article = true
  ∧ source a = self_source c
  ∧ title_of c article = Some (title a)
  ∧ timestamp_of c article = timestamp a
  ∧ url_of c article = Some (url a).
Proof.
  unfold record_of. destruct (accepted HttpUrl_ok c article); [|done].
  destruct (title_of c article), (url_of c article); cbn; [|done..].
  intros [= <-]. by cbn.
Qed.

(** Every record a run returns is the record of an item of the page the
    session returned. *)
Lemma run_returns self rs a :
  (run' self).1 = Return rs → a ∈ rs →
  ∃ status html article,
    session_get (self_url self) (self_headers self) = Responded status html
    ∧ article ∈ articles_of (cls self) (BeautifulSoup html)
    ∧ record_of HttpUrl_ok (cls self) article = Some a.
Proof.
  intros Hrun Ha.
  destruct (session_get (self_url self) (self_headers self))
    as [e|status html] eqn:Hget.
  - apply (run_raises HttpUrl_ok BeautifulSoup) in Hget. by rewrite Hget in Hrun.
  - rewrite (run_responded HttpUrl_ok BeautifulSoup _ _ _ _ Hget) in Hrun.
    injection Hrun as <-.
    apply list_elem_of_omap in Ha as (article & Hin & Hrec).
    by exists status, html, article.
Qed.

(** X1.  When the request of a run raises, the run raises the same
    exception, having sent that one request and logged nothing, not even
    the line with the number of articles: a failed fetch is neither retried
    nor reported by the parser. *)
Theorem run_fetch_failure self e :
  session_get (self_url self) (self_headers self) = Raised e →
  run HttpUrl_ok BeautifulSoup session_get self
  = (Raise e,
     {| requests := [(self_url self, self_headers self)]; logged := [] |}).
Proof.
  intros Hget. unfold run.
  by rewrite (parse_raised _ _ _ _ _ _ _ Hget).
Qed.

(** X2.  The only faults the loop ever catches are validation errors of the
    model, on the title or on the URL.  With the [if], the title cannot be
    at fault: an item raises only when it has a title, a timestamp and a
    link, and the model rejects the link. *)
Theorem item_fault_is_validation_error c article e :
  item_of' c article = Raise e →
  (e = ValidationError ["title"] ∨ e = ValidationError ["url"]
   ∨ e = ValidationError ["title"; "url"])
  ∧ (guarded c = true →
     e = ValidationError ["url"]
     ∧ truthy (title_of c article) = true
     ∧ truthy (timestamp_of c article) = true
     ∧ ∃ u, url_of c article = Some u ∧ HttpUrl_ok u = false).
Proof.
  clear BeautifulSoup session_get. rewrite item_of_fields. unfold Article_init, Article_errors.
  destruct (guarded c), (title_of c article) as [[|? ?]|],
    (timestamp_of c article) as [[|? ?]|], (url_of c article) as [[|? ?]|];
    cbn; try discriminate;
    repeat match goal with
           | |- context [HttpUrl_ok ?u] => destruct (HttpUrl_ok u) eqn:?
           end; cbn; try discriminate; intros [= <-];
    (split; [naive_solver|]); try discriminate;
    intros _; split_and!; try done; eauto.
Qed.

(** X3.  Every record a run returns carries the source name of its parser
    and a URL the model accepts. *)
Theorem run_records_valid self rs :
  (run' self).1 = Return rs →
  Forall (fun a => source a = self_source (cls self) ∧ HttpUrl_ok (url a) = true) rs.
Proof.
  intros Hrun. apply Forall_forall. intros a Ha.
  destruct (run_returns _ _ _ Hrun Ha) as (_ & _ & article & _ & _ & Hrec).
  destruct (record_of_fields _ _ _ Hrec) as (Hwf & Hsource & _ & _ & Hurl).
  split; [done|]. unfold accepted in Hwf. rewrite Hurl in Hwf.
  by apply andb_prop in Hwf as [_ ?].
Qed.

(** X4.  The records of RBC, IXBT and RIA have a title that is not empty and
    a timestamp that is there and not empty. *)
Theorem guarded_run_records self rs :
  guarded (cls self) = true →
  (run' self).1 = Return rs →
  Forall (fun a => title a ≠ "" ∧ ∃ t, timestamp a = Some t ∧ t ≠ "") rs.
Proof.
  intros Hc Hrun. apply Forall_forall. intros a Ha.
  destruct (run_returns _ _ _ Hrun Ha) as (_ & _ & article & _ & _ & Hrec).
  destruct (record_of_fields _ _ _ Hrec) as (Hwf & _ & Htitle & Hts & _).
  unfold accepted in Hwf. rewrite Hc, Htitle, Hts in Hwf.
  destruct (title a) as [|? ?], (timestamp a) as [[|? ?]|]; try discriminate.
  split; [done|]. eexists; split; [done|done].
Qed.

(** X5.  Titles and timestamps are stored stripped: stripping the title or
    the timestamp of a returned record again changes nothing. *)
Theorem run_records_stripped self rs :
  (run' self).1 = Return rs →
  Forall (fun a => strip (title a) = title a
                   ∧ strip <$> timestamp a = timestamp a) rs.
Proof.
  intros Hrun. apply Forall_forall. intros a Ha.
  destruct (run_returns _ _ _ Hrun Ha) as (_ & _ & article & _ & _ & Hrec).
  destruct (record_of_fields _ _ _ Hrec) as (_ & _ & Htitle & Hts & _).
  split.
  - unfold title_of in Htitle.
    apply fmap_Some in Htitle as (el & _ & ->). apply strip_strip.
  - rewrite <- Hts. unfold timestamp_of.
    destruct (timestamp_element (cls self) article); [|done].
    cbn [fmap option_fmap option_map]. by rewrite strip_strip.
Qed.

(** X6.  Which string the model is asked to validate.  When an item yields
    a record, Kommersant and IXBT have put the origin of the site in front
    of the [href] of the link, whatever the [href] is, and the model has
    accepted the result; RBC and RIA have passed the [href] as it is, so
    that only an [href] the model accepts by itself yields a record; in RIA
    the [href] is that of the very element whose text is the title. *)
Theorem url_provenance c article a :
  item_of' c article = Return (Some a) →
  match c with
  | KommersantParser =>
      ∃ e h, find article (strainer "a" ["uho__link"; "uho__link--overlay"] true) = Some e
             ∧ get_href e = Some h
             ∧ HttpUrl_ok ("https://www.kommersant.ru" +:+ h) = true
  | RBCParser =>
      ∃ e h, find article
               (strainer "a"
                  ["item__link"; "rm-cm-item-link"; "js-rm-central-column-item-link"]
                  true) = Some e
             ∧ get_href e = Some h
             ∧ HttpUrl_ok h = true
  | IXBTParser =>
      ∃ e h, find article (strainer "a" ["comments_link"] true) = Some e
             ∧ get_href e = Some h
             ∧ HttpUrl_ok ("https://www.ixbt.com/" +:+ h) = true
  | RIAParser =>
      ∃ e h, find article
               (strainer "a" ["list-item__title"; "color-font-hover-only"] true) = Some e
             ∧ get_href e = Some h
             ∧ HttpUrl_ok h = true
             ∧ title a = strip (text e)
  end.
Proof.
  intros Hitem%item_yields_record.
  destruct (record_of_fields _ _ _ Hitem) as (Hok & _ & Htitle & _ & Hurl).
  unfold accepted in Hok. rewrite Hurl in Hok.
  apply andb_prop in Hok as [_ Hok]. cbn in Hok.
  destruct c; unfold url_of in Hurl; unfold title_of in Htitle.
  - apply bind_Some in Hurl as (e & He & Hh).
    apply fmap_Some in Hh as (h & Hh & Hu). rewrite Hu in Hok. by exists e, h.
  - apply bind_Some in Hurl as (e & He & Hh). by exists e, (url a).
  - apply bind_Some in Hurl as (e & He & Hh).
    apply fmap_Some in Hh as (h & Hh & Hu). rewrite Hu in Hok. by exists e, h.
  - apply bind_Some in Hurl as (e & He & Hh).
    rewrite He in Htitle. cbn in Htitle. injection Htitle as Htitle.
    by exists e, (url a).
Qed.

End Records.

Section Joining.

Variable HttpUrl_ok : string → bool.
Variable BeautifulSoup : string → PageElement.
Variable session_get : string → Headers → get_outcome.

Local Abbreviation run' := (run HttpUrl_ok BeautifulSoup session_get).
Local Abbreviation main' := (main HttpUrl_ok BeautifulSoup session_get).
Local Abbreviation etl_main' := (etl_main HttpUrl_ok BeautifulSoup session_get).
Local Abbreviation found c html :=
  (omap (record_of HttpUrl_ok c) (articles_of c (BeautifulSoup html))).

(** Once the outer future is settled, no later child changes it. *)
Lemma outer_settled {A} (outcomes : list (result A)) g later r :
  @outer A g = Some r →
  @outer A (foldl (child_done outcomes) g later) = Some r.
Proof.
  revert g. induction later as [|i later IH]; intros g Hg; [done|].
  cbn. apply IH. unfold child_done.
  destruct (outcomes !! i); [|done]. unfold done_callback. cbn. by rewrite Hg.
Qed.

(** [main] on a network where the four sites answer. *)
Lemma main_all_responded order s0 h0 s1 h1 s2 h2 s3 h3 :
  order ≡ₚ [0; 1; 2; 3] →
  session_get (self_url kommersant_parser) None = Responded s0 h0 →
  session_get (self_url rbc_parser) None = Responded s1 h1 →
  session_get (self_url ixbt_parser) None = Responded s2 h2 →
  session_get (self_url ria_parser) None = Responded s3 h3 →
  main' order =
    Some (Return [found KommersantParser h0; found RBCParser h1;
                  found IXBTParser h2; found RIAParser h3]).
Proof.
  intros Hperm H0 H1 H2 H3.
  unfold main. rewrite gather_spec by exact Hperm.
  unfold tasks. cbn [fmap list_fmap].
  rewrite (run_responded _ _ _ kommersant_parser _ _ H0),
    (run_responded _ _ _ rbc_parser _ _ H1),
    (run_responded _ _ _ ixbt_parser _ _ H2),
    (run_responded _ _ _ ria_parser _ _ H3).
  rewrite first_raised_all_return; [done|].
  repeat constructor; eauto.
Qed.

(** X7.  [gather] does not wait for the other tasks once one has raised:
    while some of the four tasks are still running, [main] has already
    raised if one of the finished tasks raised (the exception of the first
    of them), and is otherwise still waiting. *)
Theorem main_fails_fast finished :
  NoDup finished →
  (∀ i, i ∈ finished → i < 4) →
  length finished < 4 →
  main' finished
  = Raise <$> first_raised ((fun p => (run' p).1) <$> tasks) finished.
Proof.
  intros Hnd Hlt Hlen. unfold main, gather.
  by rewrite gather_pending.
Qed.

(** X8.  What [main] has returned or raised is final: tasks that finish
    later do not change it. *)
Theorem main_settled_once finished later r :
  main HttpUrl_ok BeautifulSoup session_get finished = Some r →
  main HttpUrl_ok BeautifulSoup session_get (finished ++ later) = Some r.
Proof.
  unfold main, gather. rewrite foldl_app. apply outer_settled.
Qed.

(** X9.  When the four sites answer and none of the pages has an item,
    [etl_pipe.main] still writes its file: an empty array. *)
Theorem etl_main_writes_empty_array order s0 h0 s1 h1 s2 h2 s3 h3 :
  order ≡ₚ [0; 1; 2; 3] →
  session_get (self_url kommersant_parser) None = Responded s0 h0 →
  session_get (self_url rbc_parser) None = Responded s1 h1 →
  session_get (self_url ixbt_parser) None = Responded s2 h2 →
  session_get (self_url ria_parser) None = Responded s3 h3 →
  articles_of KommersantParser (BeautifulSoup h0) = [] →
  articles_of RBCParser (BeautifulSoup h1) = [] →
  articles_of IXBTParser (BeautifulSoup h2) = [] →
  articles_of RIAParser (BeautifulSoup h3) = [] →
  etl_main' order = Some (Return (JArr [])).
Proof.
  intros Hperm H0 H1 H2 H3 E0 E1 E2 E3. unfold etl_main.
  rewrite (main_all_responded _ _ _ _ _ _ _ _ _ Hperm H0 H1 H2 H3).
  by rewrite E0, E1, E2, E3.
Qed.

(** The loop of the connection test passes exactly when every URL answers
    with status 200. *)
Lemma check_sites_passed remaining :
  check_sites session_get remaining = Passed
  ↔ Forall (fun url => ∃ body, session_get url None = Responded 200 body) remaining.
Proof.
  clear HttpUrl_ok BeautifulSoup.
  induction remaining as [|url rest IH]; cbn; [by split|].
  rewrite Forall_cons, <- IH.
  destruct (session_get url None) as [e|status body]; [naive_solver|].
  destruct (Z.eqb_spec status 200) as [->|Hne]; naive_solver.
Qed.

(** X10.  [test_site_connection] passes exactly when each of its four URLs
    answers with status 200; when it fails, it fails at the first URL that
    raises or answers with another status. *)
Theorem test_site_connection_outcome :
  (test_site_connection session_get = Passed
   ↔ Forall (fun url => ∃ body, session_get url None = Responded 200 body) urls)
  ∧ (∀ url, test_site_connection session_get = Failed url →
       ∃ before after,
         urls = before ++ url :: after
         ∧ Forall (fun u => ∃ body, session_get u None = Responded 200 body) before
         ∧ ¬ ∃ body, session_get url None = Responded 200 body).
Proof.
  split; [apply check_sites_passed|]. clear HttpUrl_ok BeautifulSoup.
  unfold test_site_connection. generalize urls as remaining.
  induction remaining as [|u rest IH]; intros url; cbn; [done|].
  destruct (session_get u None) as [e|status body] eqn:Hget.
  - intros [= <-]. exists [], rest. split_and!; [done|done|]. rewrite Hget.
    by intros [? ?].
  - destruct (Z.eqb_spec status 200) as [->|Hne].
    + intros (before & after & -> & Hbefore & Hurl)%IH.
      exists (u :: before), after. split_and!; [done| |done].
      constructor; eauto.
    + intros [= <-]. exists [], rest. split_and!; [done|done|]. rewrite Hget.
      intros [? [=]]. done.
Qed.


End Joining.

Section Loading.

Variable HttpUrl_ok : string → bool.
Variable fields_Url_ok : string → bool.

Local Abbreviation load := (ArticleSchema_load HttpUrl_ok fields_Url_ok).

(** No key is reported as unknown exactly when every key is a declared
    field. *)
Lemma unknown_nil (data : gmap string json) :
  List.filter (fun k => negb (str_in k declared_fields)) (elements (dom data)) = []
  ↔ dom data ⊆ ({["source"; "title"; "timestamp"; "url"]} : gset string).
Proof.
  split.
  - intros Hnil k Hk. apply elem_of_elements in Hk.
    destruct (str_in k declared_fields) eqn:Hin.
    + cbn in Hin. rewrite !orb_true_iff, !String.eqb_eq in Hin. set_solver.
    + assert (Hf : k ∈ List.filter (fun k => negb (str_in k declared_fields))
                         (elements (dom data))).
      { apply list_elem_of_In, filter_In. split; [by apply list_elem_of_In|].
        by rewrite Hin. }
      rewrite Hnil in Hf. by apply elem_of_nil in Hf.
  - intros Hsub. apply filter_none. intros k Hk%elem_of_elements%Hsub.
    set_unfold in Hk. by destruct Hk as [[[->| ->]| ->]| ->].
Qed.

(** What a successful load says about its input. *)
Lemma load_returns_inv data a :
  load data = Return a →
  dom data ⊆ ({["source"; "title"; "timestamp"; "url"]} : gset string)
  ∧ data !! "source" = Some (JStr (source a))
  ∧ data !! "title" = Some (JStr (title a))
  ∧ match timestamp a with
    | Some t => data !! "timestamp" = Some (JStr t)
    | None => data !! "timestamp" = None ∨ data !! "timestamp" = Some JNull
    end
  ∧ data !! "url" = Some (JStr (url a))
  ∧ fields_Url_ok (url a) = true
  ∧ HttpUrl_ok (url a) = true.
Proof.
  unfold ArticleSchema_load, Url_deserialize, make_article, Article_init,
    Article_errors.
  destruct (List.filter _ (elements (dom data))) as [|k ks] eqn:Hunknown.
  - apply unknown_nil in Hunknown.
    destruct (data !! "source") as [[|s| |]|]; cbn; try discriminate;
    destruct (data !! "title") as [[|t| |]|]; cbn; try discriminate;
    destruct (data !! "timestamp") as [[|ts| |]|]; cbn; try discriminate;
    destruct (data !! "url") as [[|u| |]|]; cbn; try discriminate;
    destruct (fields_Url_ok u) eqn:Hschema; cbn; try discriminate;
    destruct (HttpUrl_ok u) eqn:Hmodel; cbn; try discriminate;
    intros [= <-]; cbn; split_and!; auto.
  - destruct (data !! "source") as [[|s| |]|]; cbn; try discriminate;
    destruct (data !! "title") as [[|t| |]|]; cbn; try discriminate;
    destruct (data !! "timestamp") as [[|ts| |]|]; cbn; try discriminate;
    destruct (data !! "url") as [[|u| |]|]; cbn; try discriminate;
    destruct (fields_Url_ok u); cbn; discriminate.
Qed.

(** X12.  [ArticleSchema.load] returns an article exactly for a dictionary
    that has no key besides the four fields, holds strings under source,
    title and url, holds a string, null or nothing under timestamp, and
    whose url passes the validator of the schema and that of the model; in
    every other case it raises.  The article then has that source, that
    title and that timestamp. *)
Theorem load_returns_iff data :
  ((∃ a, ArticleSchema_load HttpUrl_ok fields_Url_ok data = Return a)
   ↔ dom data ⊆ ({["source"; "title"; "timestamp"; "url"]} : gset string)
     ∧ (∃ s, data !! "source" = Some (JStr s))
     ∧ (∃ t, data !! "title" = Some (JStr t))
     ∧ (data !! "timestamp" = None ∨ data !! "timestamp" = Some JNull
        ∨ ∃ ts, data !! "timestamp" = Some (JStr ts))
     ∧ (∃ u, data !! "url" = Some (JStr u)
             ∧ fields_Url_ok u = true ∧ HttpUrl_ok u = true))
  ∧ (∀ a, ArticleSchema_load HttpUrl_ok fields_Url_ok data = Return a →
       data !! "source" = Some (JStr (source a))
       ∧ data !! "title" = Some (JStr (title a))
       ∧ match timestamp a with
         | Some ts => data !! "timestamp" = Some (JStr ts)
         | None => data !! "timestamp" = None ∨ data !! "timestamp" = Some JNull
         end).
Proof.
  split; [split|].
  - intros [a (Hdom & Hs & Ht & Hts & Hu & Hschema & Hmodel)%load_returns_inv].
    split_and!; eauto.
    destruct (timestamp a); naive_solver.
  - intros (Hdom%unknown_nil & [s Hs] & [t Ht] & Hts & (u & Hu & Hschema & Hmodel)).
    unfold ArticleSchema_load, Url_deserialize, make_article, Article_init,
      Article_errors.
    rewrite Hdom, Hs, Ht, Hu. cbn. rewrite Hschema.
    destruct Hts as [-> | [-> | [ts ->]]]; cbn; rewrite Hmodel; eauto.
  - intros a (_ & Hs & Ht & Hts & _)%load_returns_inv. done.
Qed.


Lemma dump_inj a b : ArticleSchema_dump a = ArticleSchema_dump b → a = b.
Proof.
  intros Heq.
  assert (Hk : ∀ k, ArticleSchema_dump a !! k = ArticleSchema_dump b !! k)
    by (intros k; by rewrite Heq).
  pose proof (Hk "source") as Hs. pose proof (Hk "title") as Ht.
  pose proof (Hk "timestamp") as Hts. pose proof (Hk "url") as Hu.
  unfold ArticleSchema_dump in Hs, Ht, Hts, Hu.
  destruct a as [s1 t1 ts1 u1], b as [s2 t2 ts2 u2]. simplify_map_eq.
  destruct ts1, ts2; by simplify_eq/=.
Qed.

(** X14.  Nothing is lost on the way to the file: the array written for the
    results of a run determines the sequence of records it was written
    from. *)
Theorem saved_array_determines_records (rs1 rs2 : list (list Article)) :
  save_to_json (articles_list rs1) = save_to_json (articles_list rs2) →
  concat rs1 = concat rs2.
Proof.
  unfold save_to_json. rewrite !articles_list_concat. intros [= Heq].
  assert (Hobj : Inj (=) (=) JObj) by (intros ?? [=]; done).
  assert (Hdump : Inj (=) (=) ArticleSchema_dump) by exact dump_inj.
  by apply (inj (fmap JObj)), (inj (fmap ArticleSchema_dump)) in Heq.
Qed.

(** X15.  The array has one object per record, and the results of the
    parsers are written one after the other: the array for two groups of
    results is the array for the first followed by that for the second. *)
Theorem articles_list_app (rs1 rs2 : list (list Article)) :
  articles_list (rs1 ++ rs2) = articles_list rs1 ++ articles_list rs2
  ∧ length (articles_list rs1) = sum_list (length <$> rs1).
Proof.
  rewrite !articles_list_concat, concat_app, fmap_app. split; [done|].
  rewrite length_fmap. induction rs1 as [|r rs1 IH]; [done|].
  cbn. by rewrite length_app, IH.
Qed.

(** X16.  The schema dumps what the model's own [dict] holds: the same four
    keys, each string as a string and [None] as null. *)
Theorem dump_is_dict (a : Article) :
  ArticleSchema_dump a = from_option JStr JNull <$> Article_dict a.
Proof.
  unfold ArticleSchema_dump, Article_dict.
  by rewrite !fmap_insert, fmap_empty.
Qed.

End Loading.

(** * The further properties on the sample inputs *)

Lemma item_fault_is_validation_error_witness :
  RBCParser_item sample_HttpUrl rbc_relative = Raise (ValidationError ["url"])
  ∧ ∃ u, url_of RBCParser rbc_relative = Some u ∧ sample_HttpUrl u = false.
Proof.
  split; [reflexivity|].
  exact (proj2 (proj2 (proj2 (proj2
           (item_fault_is_validation_error sample_HttpUrl RBCParser rbc_relative
              (ValidationError ["url"]) eq_refl) eq_refl)))).
Defined.

Lemma run_records_valid_witness :
  Forall (fun a => source a = "Kommersant" ∧ sample_HttpUrl (url a) = true)
    [{| source := "Kommersant"; title := "Chip prices fall";
        timestamp := Some "10:15"; url := "https://www.kommersant.ru/doc/1" |};
     {| source := "Kommersant"; title := "New satellite"; timestamp := None;
        url := "https://www.kommersant.ru/doc/4" |}].
Proof.
  exact (run_records_valid sample_HttpUrl sample_BeautifulSoup sample_get
           kommersant_parser _ eq_refl).
Defined.

Lemma guarded_run_records_witness :
  Forall (fun a => title a ≠ "" ∧ ∃ t, timestamp a = Some t ∧ t ≠ "")
    [{| source := "RBC"; title := "Telecom merger"; timestamp := Some "09:30";
        url := "https://www.rbc.ru/technology_and_media/1" |}].
Proof.
  exact (guarded_run_records sample_HttpUrl sample_BeautifulSoup sample_get
           rbc_parser _ eq_refl eq_refl).
Defined.

Lemma run_records_stripped_witness :
  Forall (fun a => strip (title a) = title a
                   ∧ strip <$> timestamp a = timestamp a)
    [{| source := "Kommersant"; title := "Chip prices fall";
        timestamp := Some "10:15"; url := "https://www.kommersant.ru/doc/1" |};
     {| source := "Kommersant"; title := "New satellite"; timestamp := None;
        url := "https://www.kommersant.ru/doc/4" |}].
Proof.
  exact (run_records_stripped sample_HttpUrl sample_BeautifulSoup sample_get
           kommersant_parser _ eq_refl).
Defined.

Lemma url_provenance_witness :
  ∃ e h, find ixbt_full (strainer "a" ["comments_link"] true) = Some e
         ∧ get_href e = Some h
         ∧ sample_HttpUrl ("https://www.ixbt.com/" +:+ h) = true.
Proof.
  exact (url_provenance sample_HttpUrl IXBTParser ixbt_full
           {| source := "IXBT"; title := "New GPU"; timestamp := Some "12:00";
              url := "https://www.ixbt.com/news/2024/01/01/gpu.html#comments" |}
           eq_refl).
Defined.

Lemma run_fetch_failure_witness :
  run sample_HttpUrl sample_BeautifulSoup sample_get_kommersant_down
    kommersant_parser
  = (Raise (ClientError "connection refused"),
     {| requests := [(self_url kommersant_parser, None)]; logged := [] |}).
Proof.
  exact (run_fetch_failure sample_HttpUrl sample_BeautifulSoup
           sample_get_kommersant_down kommersant_parser
           (ClientError "connection refused") eq_refl).
Defined.

Lemma main_fails_fast_witness :
  main sample_HttpUrl sample_BeautifulSoup sample_get_kommersant_down [2; 0]
  = Some (Raise (ClientError "connection refused"))
  ∧ main sample_HttpUrl sample_BeautifulSoup sample_get_kommersant_down [2; 1]
    = None.
Proof.
  split.
  - apply (main_fails_fast sample_HttpUrl sample_BeautifulSoup
             sample_get_kommersant_down [2; 0]).
    + apply NoDup_cons; split; [set_unfold; lia|apply NoDup_singleton].
    + intros i Hi. set_unfold in Hi. lia.
    + cbn. lia.
  - apply (main_fails_fast sample_HttpUrl sample_BeautifulSoup
             sample_get_kommersant_down [2; 1]).
    + apply NoDup_cons; split; [set_unfold; lia|apply NoDup_singleton].
    + intros i Hi. set_unfold in Hi. lia.
    + cbn. lia.
Defined.

Lemma main_settled_once_witness :
  main sample_HttpUrl sample_BeautifulSoup sample_get_kommersant_down
    ([2; 0] ++ [3; 1])
  = Some (Raise (ClientError "connection refused")).
Proof.
  exact (main_settled_once sample_HttpUrl sample_BeautifulSoup
           sample_get_kommersant_down [2; 0] [3; 1] _ eq_refl).
Defined.

Lemma etl_main_writes_empty_array_witness :
  etl_main sample_HttpUrl sample_BeautifulSoup
    (fun _ _ => Responded 200 no_items_html) [0; 1; 2; 3]
  = Some (Return (JArr [])).
Proof.
  exact (etl_main_writes_empty_array sample_HttpUrl sample_BeautifulSoup
           (fun _ _ => Responded 200 no_items_html) [0; 1; 2; 3]
           200 no_items_html 200 no_items_html 200 no_items_html
           200 no_items_html (Permutation_refl _)
           eq_refl eq_refl eq_refl eq_refl eq_refl eq_refl eq_refl eq_refl).
Defined.



Lemma saved_array_determines_records_witness :
  concat [[underscore_article]; [underscore_article]]
  = concat [[underscore_article; underscore_article]].
Proof.
  exact (saved_array_determines_records
           [[underscore_article]; [underscore_article]]
           [[underscore_article; underscore_article]] eq_refl).
Defined.

Section Items.

Variable HttpUrl_ok : string → bool.

Local Abbreviation item_of' := (item_of HttpUrl_ok).

(** X17.  What the loop body of each parser accepts.  An item yields a
    record exactly when it has a title element and a link whose URL the
    model accepts and, in the parsers with the [if], its title, timestamp
    and URL are not empty; the record then holds the source of the parser,
    the stripped title and the stripped timestamp. *)
Theorem item_yields_iff c article :
  ((∃ a, item_of' c article = Return (Some a))
   ↔ ∃ t u, title_of c article = Some t
            ∧ url_of c article = Some u
            ∧ HttpUrl_ok u = true
            ∧ (guarded c = true →
               t ≠ "" ∧ u ≠ "" ∧ truthy (timestamp_of c article) = true))
  ∧ (∀ a, item_of' c article = Return (Some a) →
       source a = self_source c
       ∧ title_of c article = Some (title a)
       ∧ timestamp_of c article = timestamp a).
Proof.
  assert (Hinv : ∀ a, item_of' c article = Return (Some a) →
            source a = self_source c
            ∧ title_of c article = Some (title a)
            ∧ timestamp_of c article = timestamp a
            ∧ url_of c article = Some (url a)
            ∧ accepted HttpUrl_ok c article = true).
  { intros a Hitem%item_yields_record.
    destruct (record_of_fields _ _ _ _ Hitem) as (? & ? & ? & ? & ?). done. }
  split; [split|].
  - intros [a (_ & Ht & Hts & Hu & Hok)%Hinv].
    exists (title a), (url a). unfold accepted in Hok.
    rewrite Ht, Hts, Hu in Hok. cbn in Hok.
    apply andb_prop in Hok as [Hguard Hok]. split_and!; [done..|].
    intros Hc. rewrite Hc in Hguard. rewrite <- Hts in Hguard.
    destruct (title a) as [|? ?], (url a) as [|? ?],
      (truthy (timestamp_of c article)); try discriminate. done.
  - intros (t & u & Ht & Hu & Hok & Hguard).
    rewrite item_of_fields. unfold Article_init, Article_errors.
    rewrite Ht, Hu. cbn. rewrite Hok.
    destruct (guarded c); cbn; [|eauto].
    destruct Hguard as (Hnt & Hnu & ->); [done|].
    destruct t, u; try done; cbn; eauto.
  - intros a (? & ? & ? & _)%Hinv. done.
Qed.

(** X18.  An item is passed over without a log record exactly in the
    parsers with the [if], when its title, its timestamp or its URL is
    missing or empty.  Kommersant never passes over an item silently. *)
Theorem item_left_out_iff c article :
  item_of' c article = Return None
  ↔ guarded c = true
    ∧ (truthy (title_of c article) = false
       ∨ truthy (timestamp_of c article) = false
       ∨ truthy (url_of c article) = false).
Proof.
  rewrite item_of_fields. unfold append_article.
  destruct (guarded c); cbn [andb].
  - destruct (truthy (title_of c article)), (truthy (timestamp_of c article)),
      (truthy (url_of c article)); cbn [andb negb];
      try destruct (Article_init HttpUrl_ok _ _ _ _); naive_solver.
  - destruct (Article_init HttpUrl_ok _ _ _ _); naive_solver.
Qed.

End Items.

Lemma item_yields_iff_witness :
  ∃ a, KommersantParser_item sample_HttpUrl kommersant_no_time = Return (Some a).
Proof.
  apply (proj2 (proj1 (item_yields_iff sample_HttpUrl KommersantParser
                         kommersant_no_time))).
  exists "New satellite", "https://www.kommersant.ru/doc/4".
  split_and!; [reflexivity..|]. intros [=].
Defined.

Lemma item_left_out_iff_witness :
  guarded RBCParser = true
  ∧ (truthy (title_of RBCParser rbc_no_title) = false
     ∨ truthy (timestamp_of RBCParser rbc_no_title) = false
     ∨ truthy (url_of RBCParser rbc_no_title) = false).
Proof.
  exact (proj1 (item_left_out_iff sample_HttpUrl RBCParser rbc_no_title) eq_refl).
Defined.
